(** * Binance market data crawler: data-acquisition core

    A shallow embedding of [bmac/market_api.py] and [bhds/aws_util.py]:
    the exchange market API with its three variants, the candle-closure
    poller and the archive paginator, followed by the properties proved
    about them. *)

From Stdlib Require Import ZArith String Ascii List Lia Bool DecimalString.
From stdpp Require Import base tactics option list sorting gmap strings.

Import ListNotations.
Local Open Scope string_scope.
Local Open Scope list_scope.
Local Open Scope Z_scope.

(** ** Python values *)

(** The exceptions the modelled code can raise. *)
Inductive exn : Type :=
| KeyError (key : string)
| TypeError (msg : string)
| ValueError (msg : string)
| InvalidOperation
| NetworkError (msg : string).

(** A computation that either raises or returns. *)
Definition result (A : Type) : Type := (exn + A)%type.

Definition raise {A : Type} (e : exn) : result A := inl e.
Definition ret {A : Type} (a : A) : result A := inr a.
Definition bindr {A B : Type} (r : result A) (k : A -> result B) : result B :=
  match r with
  | inl e => inl e
  | inr a => k a
  end.

Declare Scope result_scope.
Delimit Scope result_scope with result.
Notation "'try!' x ':=' r 'in' k" := (bindr r (fun x => k))
  (at level 10, x name, r at level 100, k at level 200, only parsing) : result_scope.
Local Open Scope result_scope.

(** JSON scalars as the exchange sends them: integers and strings. *)
Inductive scalar : Type :=
| SInt (z : Z)
| SStr (s : string).

(** A Python [dict] with string keys, as decoded from a JSON object. *)
Abbreviation dict V := (list (string * V)).

(** [d[key]]: the value bound to [key], or [KeyError]. *)
Fixpoint getitem {V : Type} (d : dict V) (key : string) : result V :=
  match d with
  | [] => raise (KeyError key)
  | (k, v) :: d' => if String.eqb k key then ret v else getitem d' key
  end.

(** The keys of a dict, in insertion order. *)
Definition keys {V : Type} (d : dict V) : list string := map fst d.

(** ** decimal.Decimal: construction from a string, and [str] *)

(** The constructor and [__str__] of Python's [Decimal], on ASCII text and
    within the limits the implementation puts on exponents. *)
Module PyDecimal.

(** A [Decimal]: a finite number [(-1)^sign * int * 10^exp] whose
    coefficient [int] is kept as its string of digits, or a special value. *)
Inductive Decimal : Type :=
| Finite (sign : bool) (int : list ascii) (exp : Z)
| Infinity (sign : bool)
| NaN (sign : bool) (signaling : bool) (diag : list ascii).

Definition is_digit (c : ascii) : bool :=
  let n := nat_of_ascii c in (48 <=? n)%nat && (n <=? 57)%nat.

(** ASCII white space, as removed by [str.strip()]. *)
Definition is_space (c : ascii) : bool :=
  let n := nat_of_ascii c in
  ((9 <=? n)%nat && (n <=? 13)%nat) || ((28 <=? n)%nat && (n <=? 32)%nat).

Definition lower (c : ascii) : ascii :=
  let n := nat_of_ascii c in
  if (65 <=? n)%nat && (n <=? 90)%nat then ascii_of_nat (n + 32) else c.

Fixpoint lstrip (s : list ascii) : list ascii :=
  match s with
  | c :: s' => if is_space c then lstrip s' else s
  | [] => []
  end.

Definition strip (s : list ascii) : list ascii :=
  rev (lstrip (rev (lstrip s))).

(** [s.replace("_", "")] *)
Definition remove_underscores (s : list ascii) : list ascii :=
  List.filter (fun c => negb (Ascii.eqb c "_")) s.

(** The longest prefix of digits, and what follows it. *)
Fixpoint span_digits (s : list ascii) : list ascii * list ascii :=
  match s with
  | c :: s' =>
      if is_digit c then let '(ds, r) := span_digits s' in (c :: ds, r)
      else ([], s)
  | [] => ([], [])
  end.

Fixpoint lstrip_zeros (s : list ascii) : list ascii :=
  match s with
  | c :: s' => if Ascii.eqb c "0" then lstrip_zeros s' else s
  | [] => []
  end.

(** [str(int(ds))] for a string of digits [ds]. *)
Definition str_int (ds : list ascii) : list ascii :=
  match lstrip_zeros ds with
  | [] => ["0"%char]
  | ds' => ds'
  end.

Definition digit_value (c : ascii) : Z := Z.of_nat (nat_of_ascii c) - 48.

(** [int(ds)] for a string of digits [ds]. *)
Definition int_of_digits (ds : list ascii) : Z :=
  fold_left (fun acc c => 10 * acc + digit_value c) ds 0.

(** An optional sign in front: whether it is a minus, and the rest. *)
Definition split_sign (s : list ascii) : bool * list ascii :=
  match s with
  | c :: r =>
      if Ascii.eqb c "-" then (true, r)
      else if Ascii.eqb c "+" then (false, r)
      else (false, s)
  | [] => (false, [])
  end.

(** The exponent part of a numeric string: nothing, or [E], an optional
    sign and at least one digit, up to the end of the string. *)
Definition parse_exponent (s : list ascii) : option Z :=
  match s with
  | [] => Some 0
  | e :: s' =>
      if Ascii.eqb (lower e) "e" then
        let '(neg, s'') := split_sign s' in
        match span_digits s'' with
        | (d :: ds, []) =>
            let n := int_of_digits (d :: ds) in
            Some (if neg then - n else n)
        | _ => None
        end
      else None
  end.

(** A finite number: digits with an optional fractional part, at least
    one digit in all, and an optional exponent. *)
Definition parse_finite (sign : bool) (s : list ascii) : option Decimal :=
  let '(intpart, r1) := span_digits s in
  let '(fracpart, r2) :=
    match r1 with
    | c :: r => if Ascii.eqb c "." then span_digits r else ([], r1)
    | [] => ([], [])
    end in
  match intpart, fracpart with
  | [], [] => None
  | _, _ =>
      match parse_exponent r2 with
      | Some e =>
          Some (Finite sign (str_int (intpart ++ fracpart))
                       (e - Z.of_nat (length fracpart)))
      | None => None
      end
  end.

(** [Inf], [Infinity], [NaN] and [sNaN] with diagnostic digits, in any case. *)
Definition parse_special (sign : bool) (s : list ascii) : option Decimal :=
  let l := map lower s in
  if bool_decide (l = list_ascii_of_string "inf") then Some (Infinity sign)
  else if bool_decide (l = list_ascii_of_string "infinity") then Some (Infinity sign)
  else
    let '(signaling, r) :=
      match l with
      | "s"%char :: r => (true, r)
      | _ => (false, l)
      end in
    match r with
    | "n"%char :: "a"%char :: "n"%char :: diag =>
        match span_digits diag with
        | (ds, []) => Some (NaN sign signaling (lstrip_zeros ds))
        | _ => None
        end
    | _ => None
    end.

(** [Decimal(s)] for a string [s]. *)
Definition of_string (s : string) : result Decimal :=
  let t := remove_underscores (strip (list_ascii_of_string s)) in
  let '(sign, body) := split_sign t in
  match parse_finite sign body with
  | Some d => ret d
  | None =>
      match parse_special sign body with
      | Some d => ret d
      | None => raise InvalidOperation
      end
  end.

(** The decimal digits of a non-negative integer. *)
Definition digits_of_N (n : N) : list ascii :=
  list_ascii_of_string (NilZero.string_of_uint (N.to_uint n)).

(** [Decimal(z)] for an integer [z]. *)
Definition of_int (z : Z) : Decimal :=
  Finite (z <? 0) (digits_of_N (Z.abs_N z)) 0.

(** [Decimal(v)] for the values the rule parsers pass: a JSON scalar, or
    [None] when the filter was not found. *)
Definition Decimal_new (v : option scalar) : result Decimal :=
  match v with
  | None => raise (TypeError "conversion from NoneType to Decimal is not supported")
  | Some (SInt z) => ret (of_int z)
  | Some (SStr s) => of_string s
  end.

Definition sign_str (sign : bool) : list ascii :=
  if sign then ["-"%char] else [].

(** ['E%+d' % n] *)
Definition exp_str (n : Z) : list ascii :=
  "E"%char :: (if n <? 0 then "-"%char else "+"%char) :: digits_of_N (Z.abs_N n).

(** [Decimal.__str__]: the scientific string of the number. *)
Definition to_str (d : Decimal) : string :=
  string_of_list_ascii
    match d with
    | Infinity sign => sign_str sign ++ list_ascii_of_string "Infinity"
    | NaN sign signaling diag =>
        sign_str sign ++ (if signaling then ["s"%char] else [])
          ++ list_ascii_of_string "NaN" ++ diag
    | Finite sign int exp =>
        let len := Z.of_nat (length int) in
        let leftdigits := exp + len in
        let dotplace :=
          if (exp <=? 0) && (-6 <? leftdigits) then leftdigits else 1 in
        let '(intpart, fracpart) :=
          if dotplace <=? 0 then
            (["0"%char], "."%char :: repeat "0"%char (Z.to_nat (- dotplace)) ++ int)
          else if len <=? dotplace then
            (int ++ repeat "0"%char (Z.to_nat (dotplace - len)), [])
          else
            (firstn (Z.to_nat dotplace) int,
             "."%char :: skipn (Z.to_nat dotplace) int) in
        let e :=
          if leftdigits =? dotplace then [] else exp_str (leftdigits - dotplace) in
        sign_str sign ++ intpart ++ fracpart ++ e
    end.

End PyDecimal.

(** ** The world the asynchronous code runs in *)

(** Instants are counted in nanoseconds since the epoch, the resolution of
    [pd.Timestamp]; converting an instant to [DEFAULT_TZ] does not change it. *)
Definition Timestamp : Type := Z.

(** [pd.to_datetime(ms, unit='ms', utc=True)] *)
Definition to_datetime_ms (ms : Z) : Timestamp := ms * 1000000.

(** [timedelta(seconds=sec)], in nanoseconds. *)
Definition timedelta_seconds (sec : Z) : Z := sec * 1000000000.

(** One row of a [/klines] response: twelve positional values. *)
Record kline : Type := {
  k_open_time : Z;
  k_open : string;
  k_high : string;
  k_low : string;
  k_close : string;
  k_volume : string;
  k_close_time : Z;
  k_quote_volume : string;
  k_trade_num : Z;
  k_taker_buy_base : string;
  k_taker_buy_quote : string;
  k_ignore : string
}.

(** The body of a [/time] response together with the weight header. *)
Record time_response : Type := {
  used_weight_1m : Z;
  serverTime : Z
}.

(** Values of an [exchangeInfo] symbol entry: scalars, and the filter list. *)
Inductive ival : Type :=
| IScalar (v : scalar)
| IFilters (fs : list (dict scalar)).

(** The entries of the bucket listing. A page hands its entries over as the
    list [xmltodict] builds for a repeated element. *)
Record CommonPrefix : Type := { Prefix : string }.

Record Content : Type := {
  Key : string;
  LastModified : string;
  ETag : string;
  Size : string;
  StorageClass : string
}.

(** The [ListBucketResult] element of one listing page. *)
Record ListBucketResult : Type := {
  CommonPrefixes : option (list CommonPrefix);
  Contents : option (list Content);
  IsTruncated : string;
  NextMarker : option string
}.

(** The servers answer a request by URL and by the number of requests made
    before; the counters are the only part of the world the code changes. *)
Record world : Type := {
  http_time : string -> nat -> result time_response;
  http_klines : string -> dict scalar -> nat -> result (list kline);
  http_exchange_info : string -> nat -> result (dict (list (dict ival)));
  http_premium_index : string -> nat -> result (list (dict scalar));
  http_listing : string -> nat -> result ListBucketResult;
  clock : nat -> Timestamp;
  requests : nat;
  clock_reads : nat;
  slept : Z
}.

(** An awaitable: it runs in a world, may raise, and leaves a world. *)
Definition M (A : Type) : Type := world -> result A * world.

Definition retM {A : Type} (a : A) : M A := fun w => (ret a, w).
Definition raiseM {A : Type} (e : exn) : M A := fun w => (raise e, w).
Definition bindM {A B : Type} (m : M A) (k : A -> M B) : M B :=
  fun w =>
    match m w with
    | (inl e, w') => (inl e, w')
    | (inr a, w') => k a w'
    end.
Definition liftM {A : Type} (r : result A) : M A := fun w => (r, w).

Declare Scope await_scope.
Delimit Scope await_scope with await.
Notation "'await!' x ':=' m 'in' k" := (bindM m (fun x => k))
  (at level 10, x name, m at level 100, k at level 200, only parsing) : await_scope.
Local Open Scope await_scope.

Definition count_request (w : world) : world :=
  {| http_time := http_time w; http_klines := http_klines w;
     http_exchange_info := http_exchange_info w;
     http_premium_index := http_premium_index w;
     http_listing := http_listing w; clock := clock w;
     requests := S (requests w); clock_reads := clock_reads w;
     slept := slept w |}.

(** [session.get(url)] against one of the servers: one network attempt. *)
Definition session_get {A : Type}
    (server : world -> nat -> result A) : M A :=
  fun w => (server w (requests w), count_request w).

(** [asyncio.sleep(sec)] *)
Definition sleep (sec : Z) : M unit :=
  fun w =>
    (ret tt,
     {| http_time := http_time w; http_klines := http_klines w;
        http_exchange_info := http_exchange_info w;
        http_premium_index := http_premium_index w;
        http_listing := http_listing w; clock := clock w;
        requests := requests w; clock_reads := clock_reads w;
        slept := slept w + sec |}).

(** Modelled from the spec: [util.now_time], the current wall-clock time;
    each call is the next reading of the clock. *)
Definition now_time : M Timestamp :=
  fun w =>
    (ret (clock w (clock_reads w)),
     {| http_time := http_time w; http_klines := http_klines w;
        http_exchange_info := http_exchange_info w;
        http_premium_index := http_premium_index w;
        http_listing := http_listing w; clock := clock w;
        requests := requests w; clock_reads := S (clock_reads w);
        slept := slept w |}).

(** ** The Retry Executor *)

Section RetryExecutor.

(** The caller-fixed retry policy: the cap on attempts and the delay
    between two attempts. *)
Variable max_attempts : nat.
Variable retry_delay : Z.

Fixpoint retry_loop {A : Type} (retries : nat) (func : M A) : M A :=
  fun w =>
    match func w with
    | (inr a, w') => (inr a, w')
    | (inl e, w') =>
        match retries with
        | O => (inl e, w')
        | S n => retry_loop n func (snd (sleep retry_delay w'))
        end
    end.

(** Modelled from the spec: [util.async_retry_getter], the Retry Executor.
    It runs the operation; on any failure it retries after the delay, up to
    [max_attempts] attempts in all, then surfaces the last failure. *)
Definition async_retry_getter {A : Type} (func : M A) : M A :=
  retry_loop (max_attempts - 1) func.

End RetryExecutor.

(** ** bmac/market_api.py *)

#[export] Instance scalar_eq_dec : EqDecision scalar.
Proof. solve_decision. Defined.

(** [d[key] = v]: a bound key keeps its place, a new one goes last. *)
Fixpoint setitem {K V : Type} `{EqDecision K} (d : list (K * V)) (key : K) (v : V)
    : list (K * V) :=
  match d with
  | [] => [(key, v)]
  | (k, x) :: d' =>
      if decide (k = key) then (k, v) :: d' else (k, x) :: setitem d' key v
  end.

(** [d.update(other)] *)
Definition update {K V : Type} `{EqDecision K} (d other : list (K * V))
    : list (K * V) :=
  fold_left (fun acc kv => setitem acc (fst kv) (snd kv)) other d.

(** The loop of [get_from_filters] over a list of filters; falling off the
    end returns [None]. *)
Fixpoint get_from_filter_list (filters : list (dict scalar))
    (filter_type field_name : string) : result (option scalar) :=
  match filters with
  | [] => ret None
  | f :: filters' =>
      try! t := getitem f "filterType" in
      if decide (t = SStr filter_type)
      then try! v := getitem f field_name in ret (Some v)
      else get_from_filter_list filters' filter_type field_name
  end.

Definition get_from_filters (filters : ival) (filter_type field_name : string)
    : result (option scalar) :=
  match filters with
  | IFilters fs => get_from_filter_list fs filter_type field_name
  | IScalar (SInt _) => raise (TypeError "'int' object is not iterable")
  | IScalar (SStr EmptyString) => ret None
  | IScalar (SStr _) => raise (TypeError "string indices must be integers")
  end.

(** The values of a parsed rule: entry values passed through, and decimals. *)
Inductive rule_val : Type :=
| RVal (v : ival)
| RDec (d : PyDecimal.Decimal).

(** [Decimal(get_from_filters(filters, filter_type, field_name))] *)
Definition decimal_from_filters (filters : ival) (filter_type field_name : string)
    : result rule_val :=
  try! v := get_from_filters filters filter_type field_name in
  try! d := PyDecimal.Decimal_new v in
  ret (RDec d).

(** Values with numeric dtype: a float made from an integer or from a
    numeric string, or NaN. *)
Inductive float64 : Type :=
| float_of_int (z : Z)
| float_of_str (s : string)
| nan.

(** A row of the candle dataframe. *)
Record candle : Type := {
  candle_begin_time : Timestamp;
  open : float64;
  high : float64;
  low : float64;
  close : float64;
  volume : float64;
  close_time : Timestamp;
  quote_volume : float64;
  trade_num : float64;
  taker_buy_base_asset_volume : float64;
  taker_buy_quote_asset_volume : float64
}.

Definition DataFrame : Type := list candle.

(** A row of the funding-rate dataframe. *)
Record funding_record : Type := {
  fr_symbol : scalar;
  fr_fundingRate : float64
}.

(** The abstract class: the variant-specific methods and the constructor's
    attribute. *)
Class BinanceMarketApi : Type := {
  candle_close_timeout_sec : Z;
  parse_syminfo : dict ival -> result (dict rule_val);
  aioreq_timestamp_and_weight : M (Z * Z);
  aioreq_candle : string -> string -> dict scalar -> M (list kline);
  aioreq_exchange_info : M (dict (list (dict ival)));
  aioreq_premium_index : M (option (list (dict scalar)))
}.

(** The dataframe built from a [/klines] response: every column as float,
    the two time columns as instants, the [ignore] column dropped. Epoch
    milliseconds are far below 2^53, so the float holds them exactly. *)
Definition candle_of_kline (k : kline) : candle :=
  {| candle_begin_time := to_datetime_ms (k_open_time k);
     open := float_of_str (k_open k);
     high := float_of_str (k_high k);
     low := float_of_str (k_low k);
     close := float_of_str (k_close k);
     volume := float_of_str (k_volume k);
     close_time := to_datetime_ms (k_close_time k);
     quote_volume := float_of_str (k_quote_volume k);
     trade_num := float_of_int (k_trade_num k);
     taker_buy_base_asset_volume := float_of_str (k_taker_buy_base k);
     taker_buy_quote_asset_volume := float_of_str (k_taker_buy_quote k) |}.

(** [series.max()]: nothing for an empty series. *)
Definition series_max (xs : list Z) : option Z :=
  match xs with
  | [] => None
  | x :: xs' => Some (fold_left Z.max xs' x)
  end.

(** [df['candle_begin_time'].max() >= run_time]; a missing maximum compares
    false. *)
Definition max_begin_time_ge (df : DataFrame) (run_time : Timestamp) : bool :=
  match series_max (map candle_begin_time df) with
  | Some m => run_time <=? m
  | None => false
  end.

(** [df[df['candle_begin_time'] < run_time]] *)
Definition before (run_time : Timestamp) (df : DataFrame) : DataFrame :=
  List.filter (fun c => candle_begin_time c <? run_time) df.

Section MarketApi.

Variable max_attempts : nat.
Variable retry_delay : Z.

(** Whether pandas reads a string as a number. *)
Variable is_numeric : string -> bool.

Abbreviation async_retry_getter := (async_retry_getter max_attempts retry_delay).

(** [pd.to_numeric(v, errors='coerce')] *)
Definition to_numeric_coerce (v : scalar) : float64 :=
  match v with
  | SInt z => float_of_int z
  | SStr s => if is_numeric s then float_of_str s else nan
  end.

Context (self : BinanceMarketApi).

Definition get_timestamp_and_weight : M (Timestamp * Z) :=
  await! tw := async_retry_getter aioreq_timestamp_and_weight in
  retM (to_datetime_ms (fst tw), snd tw).

(** The records built by the comprehension of [get_funding_rate]. *)
Fixpoint funding_records (data : list (dict scalar)) : result (list funding_record) :=
  match data with
  | [] => ret []
  | d :: data' =>
      try! symbol := getitem d "symbol" in
      try! rate := getitem d "lastFundingRate" in
      try! rest := funding_records data' in
      ret ({| fr_symbol := symbol; fr_fundingRate := to_numeric_coerce rate |} :: rest)
  end.

Definition get_funding_rate : M (list funding_record) :=
  await! data := aioreq_premium_index in
  match data with
  | None => raiseM (TypeError "'NoneType' object is not iterable")
  | Some data => liftM (funding_records data)
  end.

Definition get_candle (symbol interval : string) (kwargs : dict scalar)
    : M DataFrame :=
  await! data := async_retry_getter (aioreq_candle symbol interval kwargs) in
  retM (map candle_of_kline data).

(** The polling loop; [fuel] bounds the number of polls. *)
Fixpoint fetch_recent_closed_candle (fuel : nat) (symbol interval : string)
    (run_time : Timestamp) (limit : Z) (w : world)
    : option (result (DataFrame * bool) * world) :=
  match fuel with
  | O => None
  | S fuel' =>
      let expire_sec := candle_close_timeout_sec in
      match get_candle symbol interval [("limit", SInt limit)] w with
      | (inl e, w1) => Some (inl e, w1)
      | (inr df, w1) =>
          if max_begin_time_ge df run_time
          then Some (ret (before run_time df, true), w1)
          else
            match now_time w1 with
            | (inl e, w2) => Some (inl e, w2)
            | (inr now, w2) =>
                if timedelta_seconds expire_sec <? now - run_time
                then Some (ret (before run_time df, false), w2)
                else
                  fetch_recent_closed_candle fuel' symbol interval run_time limit
                    (snd (sleep 1 w2))
            end
      end
  end.

(** The loop of [get_syminfo] over the symbol entries. *)
Fixpoint syminfo_loop (symbols : list (dict ival))
    (results : list (scalar * dict rule_val))
    : result (list (scalar * dict rule_val)) :=
  match symbols with
  | [] => ret results
  | info :: symbols' =>
      try! rule := parse_syminfo info in
      try! symbol := getitem info "symbol" in
      match symbol with
      | IScalar k => syminfo_loop symbols' (setitem results k rule)
      | IFilters _ => raise (TypeError "unhashable type: 'list'")
      end
  end.

Definition get_syminfo : M (list (scalar * dict rule_val)) :=
  await! exg_info := async_retry_getter aioreq_exchange_info in
  liftM (try! symbols := getitem exg_info "symbols" in syminfo_loop symbols []).

End MarketApi.

(** *** The three market variants *)

(** The request methods shared by the variants, up to the URL. *)
Definition request_time (url : string) : M (Z * Z) :=
  await! resp := session_get (fun w => http_time w url) in
  let weight := used_weight_1m resp in
  let timestamp := serverTime resp in
  retM (timestamp, weight).

Definition request_klines (url symbol interval : string) (kwargs : dict scalar)
    : M (list kline) :=
  let params := [("symbol", SStr symbol); ("interval", SStr interval)] in
  let params := update params kwargs in
  session_get (fun w => http_klines w url params).

Definition request_exchange_info (url : string) : M (dict (list (dict ival))) :=
  session_get (fun w => http_exchange_info w url).

Definition request_premium_index (url : string) : M (option (list (dict scalar))) :=
  await! results := session_get (fun w => http_premium_index w url) in
  retM (Some results).

Module BinanceUsdtFutureMarketApi.

Definition parse_syminfo (info : dict ival) : result (dict rule_val) :=
  try! filters := getitem info "filters" in
  try! symbol := getitem info "symbol" in
  try! contract_type := getitem info "contractType" in
  try! status := getitem info "status" in
  try! base_asset := getitem info "baseAsset" in
  try! quote_asset := getitem info "quoteAsset" in
  try! margin_asset := getitem info "marginAsset" in
  try! price_tick := decimal_from_filters filters "PRICE_FILTER" "tickSize" in
  try! face_value := decimal_from_filters filters "LOT_SIZE" "stepSize" in
  try! min_notional_value := decimal_from_filters filters "MIN_NOTIONAL" "notional" in
  ret [("symbol", RVal symbol);
       ("contract_type", RVal contract_type);
       ("status", RVal status);
       ("base_asset", RVal base_asset);
       ("quote_asset", RVal quote_asset);
       ("margin_asset", RVal margin_asset);
       ("price_tick", price_tick);
       ("face_value", face_value);
       ("min_notional_value", min_notional_value)].

Definition new (candle_close_timeout_sec : Z) : BinanceMarketApi :=
  Build_BinanceMarketApi candle_close_timeout_sec parse_syminfo
    (request_time "https://fapi.binance.com/fapi/v1/time")
    (request_klines "https://fapi.binance.com/fapi/v1/klines")
    (request_exchange_info "https://fapi.binance.com/fapi/v1/exchangeInfo")
    (request_premium_index "https://fapi.binance.com/fapi/v1/premiumIndex").

End BinanceUsdtFutureMarketApi.

Module BinanceCoinFutureMarketApi.

Definition parse_syminfo (info : dict ival) : result (dict rule_val) :=
  try! filters := getitem info "filters" in
  try! symbol := getitem info "symbol" in
  try! contract_type := getitem info "contractType" in
  try! status := getitem info "contractStatus" in
  try! base_asset := getitem info "baseAsset" in
  try! quote_asset := getitem info "quoteAsset" in
  try! margin_asset := getitem info "marginAsset" in
  try! price_tick := decimal_from_filters filters "PRICE_FILTER" "tickSize" in
  try! face_value := decimal_from_filters filters "LOT_SIZE" "stepSize" in
  ret [("symbol", RVal symbol);
       ("contract_type", RVal contract_type);
       ("status", RVal status);
       ("base_asset", RVal base_asset);
       ("quote_asset", RVal quote_asset);
       ("margin_asset", RVal margin_asset);
       ("price_tick", price_tick);
       ("face_value", face_value)].

Definition new (candle_close_timeout_sec : Z) : BinanceMarketApi :=
  Build_BinanceMarketApi candle_close_timeout_sec parse_syminfo
    (request_time "https://dapi.binance.com/dapi/v1/time")
    (request_klines "https://dapi.binance.com/dapi/v1/klines")
    (request_exchange_info "https://dapi.binance.com/dapi/v1/exchangeInfo")
    (request_premium_index "https://dapi.binance.com/dapi/v1/premiumIndex").

End BinanceCoinFutureMarketApi.

Module BinanceUsdtSpotMarketApi.

Definition parse_syminfo (info : dict ival) : result (dict rule_val) :=
  try! filters := getitem info "filters" in
  try! symbol := getitem info "symbol" in
  try! status := getitem info "status" in
  try! base_asset := getitem info "baseAsset" in
  try! quote_asset := getitem info "quoteAsset" in
  try! price_tick := decimal_from_filters filters "PRICE_FILTER" "tickSize" in
  try! face_value := decimal_from_filters filters "LOT_SIZE" "stepSize" in
  try! min_notional_value := decimal_from_filters filters "NOTIONAL" "minNotional" in
  ret [("symbol", RVal symbol);
       ("status", RVal status);
       ("base_asset", RVal base_asset);
       ("quote_asset", RVal quote_asset);
       ("price_tick", price_tick);
       ("face_value", face_value);
       ("min_notional_value", min_notional_value)].

(** The body of [aioreq_premium_index] is [pass]: it sends nothing and
    returns [None]. *)
Definition aioreq_premium_index : M (option (list (dict scalar))) :=
  retM None.

Definition new (candle_close_timeout_sec : Z) : BinanceMarketApi :=
  Build_BinanceMarketApi candle_close_timeout_sec parse_syminfo
    (request_time "https://api.binance.com/api/v3/time")
    (request_klines "https://api.binance.com/api/v3/klines")
    (request_exchange_info "https://api.binance.com/api/v3/exchangeInfo")
    aioreq_premium_index.

End BinanceUsdtSpotMarketApi.

(** ** bhds/aws_util.py *)

Definition PREFIX : string :=
  "https://s3-ap-northeast-1.amazonaws.com/data.binance.vision".
Definition PATH_API_URL : string := PREFIX +:+ "?delimiter=/&prefix=".

(** Python compares strings by code point, which on UTF-8 text is the
    lexicographic order of the bytes. *)
Definition str_le (a b : string) : Prop := String.leb a b = true.

#[export] Instance str_le_dec : RelDecision str_le.
Proof. intros a b. unfold str_le. apply _. Defined.

(** [sorted(set(results))] *)
Definition sorted_set (results : list string) : list string :=
  merge_sort str_le (elements (list_to_set results : gset string)).

(** [_aio_get(session, url)]: one request, the XML parsed. *)
Definition _aio_get (url : string) : M ListBucketResult :=
  session_get (fun w => http_listing w url).

(** The entries one page adds to [results]. *)
Definition page_results (xml_data : ListBucketResult) : list string :=
  match CommonPrefixes xml_data with
  | Some prefixes => map Prefix prefixes
  | None =>
      match Contents xml_data with
      | Some contents => map Key contents
      | None => []
      end
  end.

Section AwsUtil.

Variable max_attempts : nat.
Variable retry_delay : Z.

(** The [while True] loop of [aws_list_dir]; [fuel] bounds the number of
    pages requested. *)
Fixpoint aws_list_pages (fuel : nat) (base_url url : string)
    (results : list string) (w : world)
    : option (result (list string) * world) :=
  match fuel with
  | O => None
  | S fuel' =>
      match async_retry_getter max_attempts retry_delay (_aio_get url) w with
      | (inl e, w') => Some (inl e, w')
      | (inr xml_data, w') =>
          let results := results ++ page_results xml_data in
          if String.eqb (IsTruncated xml_data) "false"
          then Some (ret results, w')
          else
            match NextMarker xml_data with
            | None => Some (raise (KeyError "NextMarker"), w')
            | Some marker =>
                aws_list_pages fuel' base_url
                  (base_url +:+ "&marker=" +:+ marker) results w'
            end
      end
  end.

Definition aws_list_dir (fuel : nat) (path : string) (w : world)
    : option (result (list string) * world) :=
  let url := PATH_API_URL +:+ path in
  let base_url := url in
  match aws_list_pages fuel base_url url [] w with
  | Some (inr results, w') => Some (ret (sorted_set results), w')
  | other => other
  end.

End AwsUtil.

(** *** Paths and file names of the archive *)

Definition AWS_TYPE_MAP : dict (list string) :=
  [("spot", ["data"; "spot"]);
   ("usdt_futures", ["data"; "futures"; "um"]);
   ("coin_futures", ["data"; "futures"; "cm"])].

(** [c in s] for a character [c]. *)
Fixpoint has_char (c : ascii) (s : string) : bool :=
  match s with
  | EmptyString => false
  | String x s' => Ascii.eqb x c || has_char c s'
  end.

(** [s.startswith('/')] and [s.endswith('/')] *)
Definition startswith_sep (s : string) : bool :=
  match s with
  | String c _ => Ascii.eqb c "/"
  | EmptyString => false
  end.

Fixpoint endswith_sep (s : string) : bool :=
  match s with
  | EmptyString => false
  | String c EmptyString => Ascii.eqb c "/"
  | String _ s' => endswith_sep s'
  end.

(** The loop of [posixpath.join]: an absolute component starts the path
    anew, any other is appended after one separator. *)
Fixpoint os_path_join (path : string) (p : list string) : string :=
  match p with
  | [] => path
  | b :: p' =>
      let path' :=
        if startswith_sep b then b
        else if String.eqb path "" || endswith_sep path then path +:+ b
        else path +:+ "/" +:+ b in
      os_path_join path' p'
  end.

(** [os.sep] on a POSIX host. *)
Definition os_sep : string := "/".

Definition aws_get_candle_dir (type_ symbol time_interval : string) (local : bool)
    : result string :=
  try! tokens := getitem AWS_TYPE_MAP type_ in
  let path_tokens := tokens ++ ["daily"; "klines"; symbol; time_interval] in
  if local then
    match path_tokens with
    | a :: p => ret (os_path_join a p +:+ os_sep)
    | [] => raise (TypeError "join() missing 1 required positional argument: 'a'")
    end
  else ret (String.concat "/" path_tokens +:+ "/").

(** [posixpath.basename(p)]: what follows the last separator. *)
Fixpoint os_path_basename (p : string) : string :=
  match p with
  | EmptyString => EmptyString
  | String c p' =>
      if has_char "/" p' then os_path_basename p'
      else if Ascii.eqb c "/" then p' else p
  end.

(** [s.split(c)[0]]: what precedes the first [c]. *)
Fixpoint split_first (c : ascii) (s : string) : string :=
  match s with
  | EmptyString => EmptyString
  | String x s' => if Ascii.eqb x c then EmptyString else String x (split_first c s')
  end.

(** What follows the first [c], if there is one. *)
Fixpoint after_first (c : ascii) (s : string) : option string :=
  match s with
  | EmptyString => None
  | String x s' => if Ascii.eqb x c then Some s' else after_first c s'
  end.

(** [s.split(c, 2)[-1]]: what follows the second [c], or the first when
    there is only one, or all of [s]. *)
Definition split2_last (c : ascii) (s : string) : string :=
  match after_first c s with
  | None => s
  | Some r1 =>
      match after_first c r1 with
      | None => r1
      | Some r2 => r2
      end
  end.

(** [s.replace(c, '')] *)
Fixpoint remove_char (c : ascii) (s : string) : string :=
  match s with
  | EmptyString => EmptyString
  | String x s' => if Ascii.eqb x c then remove_char c s' else String x (remove_char c s')
  end.

Definition parse_aws_dt_from_filepath (p : string) : string :=
  let filename := os_path_basename p in
  let dt := remove_char "-" (split2_last "-" (split_first "." filename)) in
  dt.



(** ** Vocabulary of the statements *)

(** Whether a computation returned rather than raised. *)
Definition returned {A : Type} (r : result A) : bool :=
  match r with
  | inr _ => true
  | inl _ => false
  end.

(** The three market variants. *)
Inductive market : Type := spot | usdt_futures | coin_futures.

Definition market_api (m : market) (candle_close_timeout_sec : Z)
    : BinanceMarketApi :=
  match m with
  | spot => BinanceUsdtSpotMarketApi.new candle_close_timeout_sec
  | usdt_futures => BinanceUsdtFutureMarketApi.new candle_close_timeout_sec
  | coin_futures => BinanceCoinFutureMarketApi.new candle_close_timeout_sec
  end.

(** A numeric reading for the examples: an optional minus sign, digits and
    dots only. *)
Definition plain_numeric (s : string) : bool :=
  match list_ascii_of_string s with
  | [] => false
  | c :: r =>
      forallb (fun x => PyDecimal.is_digit x || Ascii.eqb x ".")
        (if Ascii.eqb c "-" then r else c :: r)
  end.

(** *** Sample responses *)

Definition sample_kline (open_time close_time : Z) : kline :=
  {| k_open_time := open_time; k_open := "27000.10"; k_high := "27010.00";
     k_low := "26990.00"; k_close := "27005.50"; k_volume := "12.345";
     k_close_time := close_time; k_quote_volume := "333333.3";
     k_trade_num := 420; k_taker_buy_base := "6.1";
     k_taker_buy_quote := "164718.2"; k_ignore := "0" |}.

Definition sample_premium_index : list (dict scalar) :=
  [ [("symbol", SStr "BTCUSDT"); ("lastFundingRate", SStr "0.00010000");
     ("time", SInt 1597370495002)];
    [("symbol", SStr "BTCUSD_240329"); ("lastFundingRate", SStr "");
     ("time", SInt 1597370495002)];
    [("symbol", SStr "ETHUSDT"); ("lastFundingRate", SStr "-0.00005000");
     ("time", SInt 1597370495002)] ].

Definition sample_filters (tick_size : string) : list (dict scalar) :=
  [ [("filterType", SStr "PRICE_FILTER"); ("minPrice", SStr "0.00000001");
     ("tickSize", SStr tick_size)];
    [("filterType", SStr "LOT_SIZE"); ("stepSize", SStr "0.001")];
    [("filterType", SStr "MAX_NUM_ORDERS"); ("limit", SInt 200)];
    [("filterType", SStr "MIN_NOTIONAL"); ("notional", SStr "5")];
    [("filterType", SStr "NOTIONAL"); ("minNotional", SStr "5.00000000")] ].

(** A symbol entry carrying the fields of every variant. *)
Definition sample_info (symbol tick_size : string) : dict ival :=
  [ ("symbol", IScalar (SStr symbol));
    ("status", IScalar (SStr "TRADING"));
    ("contractStatus", IScalar (SStr "TRADING"));
    ("contractType", IScalar (SStr "PERPETUAL"));
    ("baseAsset", IScalar (SStr "BTC"));
    ("quoteAsset", IScalar (SStr "USDT"));
    ("marginAsset", IScalar (SStr "USDT"));
    ("filters", IFilters (sample_filters tick_size)) ].

(** The rule the spot variant parses from the sample entry with a tick
    size of [0.00010000]. *)
Definition sample_spot_rule : dict rule_val :=
  [("symbol", RVal (IScalar (SStr "BTCUSDT")));
   ("status", RVal (IScalar (SStr "TRADING")));
   ("base_asset", RVal (IScalar (SStr "BTC")));
   ("quote_asset", RVal (IScalar (SStr "USDT")));
   ("price_tick", RDec (PyDecimal.Finite false (list_ascii_of_string "10000") (-8)));
   ("face_value", RDec (PyDecimal.Finite false (list_ascii_of_string "1") (-3)));
   ("min_notional_value",
    RDec (PyDecimal.Finite false (list_ascii_of_string "500000000") (-8)))].

(** A world whose servers fail on the first [failures] requests and answer
    from then on, and whose clock reads [clock]. *)
Definition sample_world (failures : nat) (klines : nat -> list kline)
    (symbols : list (dict ival)) (listing : string -> result ListBucketResult)
    (clock : nat -> Timestamp) : world :=
  let answer {A : Type} (a : nat -> result A) (n : nat) : result A :=
    if (n <? failures)%nat then raise (NetworkError "timeout") else a n in
  {| http_time := fun _ =>
       answer (fun _ => ret {| used_weight_1m := 12; serverTime := 1700000000000 |});
     http_klines := fun _ _ => answer (fun n => ret (klines n));
     http_exchange_info := fun _ => answer (fun _ => ret [("symbols", symbols)]);
     http_premium_index := fun _ => answer (fun _ => ret sample_premium_index);
     http_listing := fun url => answer (fun _ => listing url);
     clock := clock;
     requests := 0;
     clock_reads := 0;
     slept := 0 |}.

Definition no_listing (url : string) : result ListBucketResult :=
  raise (NetworkError "not found").

(** Every server fails once, then answers. *)
Definition flaky_world : world :=
  sample_world 1 (fun _ => [sample_kline 1000 1999])
    [sample_info "BTCUSDT" "0.10"] no_listing (fun _ => 0).

(** *** Funding records and rule shapes *)


(** Two rules have the same shape when they carry the same fields. *)
Definition same_fields (r1 r2 : dict rule_val) : Prop :=
  forall k, In k (keys r1) <-> In k (keys r2).

(** The fields of the rule each variant returns. *)
Definition rule_fields (m : market) : list string :=
  match m with
  | spot =>
      ["symbol"; "status"; "base_asset"; "quote_asset";
       "price_tick"; "face_value"; "min_notional_value"]
  | usdt_futures =>
      ["symbol"; "contract_type"; "status"; "base_asset"; "quote_asset";
       "margin_asset"; "price_tick"; "face_value"; "min_notional_value"]
  | coin_futures =>
      ["symbol"; "contract_type"; "status"; "base_asset"; "quote_asset";
       "margin_asset"; "price_tick"; "face_value"]
  end.

(** The fields every variant returns. *)
Definition common_fields : list string :=
  ["symbol"; "status"; "base_asset"; "quote_asset"; "price_tick"; "face_value"].

(** The entry field the status is read from. *)
Definition status_field (m : market) : string :=
  match m with
  | coin_futures => "contractStatus"
  | _ => "status"
  end.

(** The filter type and field each decimal field of a rule is read from. *)
Definition decimal_sources (m : market) : list (string * (string * string)) :=
  match m with
  | spot =>
      [("price_tick", ("PRICE_FILTER", "tickSize"));
       ("face_value", ("LOT_SIZE", "stepSize"));
       ("min_notional_value", ("NOTIONAL", "minNotional"))]
  | usdt_futures =>
      [("price_tick", ("PRICE_FILTER", "tickSize"));
       ("face_value", ("LOT_SIZE", "stepSize"));
       ("min_notional_value", ("MIN_NOTIONAL", "notional"))]
  | coin_futures =>
      [("price_tick", ("PRICE_FILTER", "tickSize"));
       ("face_value", ("LOT_SIZE", "stepSize"))]
  end.

(** The value [Decimal] is given for a field of the entry is one it rejects. *)
Definition decimal_parse_fails (info : dict ival) (filter_type field_name : string)
    : Prop :=
  exists filters v e,
    getitem info "filters" = ret filters
    /\ get_from_filters filters filter_type field_name = ret v
    /\ PyDecimal.Decimal_new v = raise e.

(** *** Sample worlds *)

(** An exchange-info response whose only entry has a tick size that is not
    a number. *)
Definition malformed_world : world :=
  sample_world 0 (fun _ => []) [sample_info "BTCUSDT" "0.1O"] no_listing (fun _ => 0).

(** *** Candle sequences *)





(** *** The polls of the closure poller *)

Module Poller.

Section PollSequence.

Variable max_attempts : nat.
Variable retry_delay : Z.
Variable self : BinanceMarketApi.
Variables symbol interval : string.
Variable run_time : Timestamp.
Variable limit : Z.

(** One fetch of the poller. *)
Definition poll (w : world) : result DataFrame * world :=
  get_candle max_attempts retry_delay self symbol interval [("limit", SInt limit)] w.

(** The world in which the next poll starts: after the fetch, the reading
    of the clock and the pause. *)
Definition next_poll (w : world) : world :=
  snd (sleep 1 (snd (now_time (snd (poll w))))).

(** The world in which poll [k] starts, counting from 0. *)
Fixpoint world_at (k : nat) (w : world) : world :=
  match k with
  | O => w
  | S k' => world_at k' (next_poll w)
  end.

(** The batch fetched by poll [k], and the world right after the fetch. *)
Definition batch_at (k : nat) (w : world) : result DataFrame :=
  fst (poll (world_at k w)).

Definition fetched_at (k : nat) (w : world) : world :=
  snd (poll (world_at k w)).

(** The clock as poll [k] reads it after its fetch, and the world then. *)
Definition clock_at (k : nat) (w : world) : Timestamp :=
  clock (fetched_at k w) (clock_reads (fetched_at k w)).

Definition timed_at (k : nat) (w : world) : world :=
  snd (now_time (fetched_at k w)).

(** The batch holds a candle that opens at [run_time] or later. *)
Definition shows_closure (df : DataFrame) : Prop :=
  Exists (fun c => run_time <= candle_begin_time c) df.

(** The wall clock exceeds [run_time] plus the timeout. *)
Definition expired (now : Timestamp) : Prop :=
  run_time + timedelta_seconds candle_close_timeout_sec < now.

(** The polls before poll [n] each fetched a batch that shows no closure,
    at a time that had not expired: the loop gets to poll [n]. *)
Definition keeps_polling (n : nat) (w : world) : Prop :=
  forall k, (k < n)%nat ->
    exists df, batch_at k w = ret df /\ ~ shows_closure df /\ ~ expired (clock_at k w).

End PollSequence.

End Poller.

(** The bar opening at minute 1 shows up at the second poll. *)
Definition closing_world : world :=
  sample_world 0
    (fun n => if (n =? 0)%nat then [sample_kline 0 59999]
              else [sample_kline 0 59999; sample_kline 60000 119999])
    [] no_listing (fun _ => to_datetime_ms 61000).

(** The bar opening at minute 1 never shows up; the second reading of the
    clock is past the timeout of ten seconds. *)
Definition stale_world : world :=
  sample_world 0 (fun _ => [sample_kline 0 59999]) [] no_listing
    (fun n => if (n =? 0)%nat then to_datetime_ms 61000 else to_datetime_ms 71000).

(** *** Archive listings *)




(** A listing of three pages whose boundaries overlap by one key. *)
Definition archive_dir : string := "data/spot/daily/klines/BTCUSDT/1m/".

Definition archive_key (day : string) : string :=
  archive_dir +:+ "BTCUSDT-1m-2021-03-0" +:+ day +:+ ".zip".

Definition archive_object (day : string) : Content :=
  {| Key := archive_key day; LastModified := "2021-03-1" +:+ day +:+ "T08:00:00.000Z";
     ETag := "0f343b0931126a20f133d67c2b018a3b"; Size := "61874";
     StorageClass := "STANDARD" |}.

Definition archive_page (days : list string) (truncated : string)
    (marker : option string) : ListBucketResult :=
  {| CommonPrefixes := None; Contents := Some (map archive_object days);
     IsTruncated := truncated; NextMarker := marker |}.


Definition archive_listing (url : string) : result ListBucketResult :=
  let base_url := PATH_API_URL +:+ archive_dir in
  if String.eqb url base_url then
    ret (archive_page ["1"; "2"] "true" (Some (archive_key "2")))
  else if String.eqb url (base_url +:+ "&marker=" +:+ archive_key "2") then
    ret (archive_page ["2"; "3"] "true" (Some (archive_key "3")))
  else if String.eqb url (base_url +:+ "&marker=" +:+ archive_key "3") then
    ret (archive_page ["3"; "4"] "false" None)
  else raise (NetworkError "not found").

Definition archive_world : world :=
  sample_world 0 (fun _ => []) [] archive_listing (fun _ => 0).

(** *** Plain numerals *)

(** A string of digits. *)
Definition digits (s : list ascii) : Prop :=
  Forall (fun c => PyDecimal.is_digit c = true) s.

(** An integer part without redundant zeros in front: one digit, or several
    of which the first is not zero. *)
Definition canonical_int (s : list ascii) : Prop :=
  digits s
  /\ match s with
     | [] => False
     | [_] => True
     | c :: _ => c <> "0"%char
     end.

(** The fractional part of a numeral, with its point; nothing when there
    are no decimals. *)
Definition frac_suffix (frac : list ascii) : list ascii :=
  match frac with
  | [] => []
  | _ => "."%char :: frac
  end.

(** The plain numeral with integer part [int] and decimals [frac]. *)
Definition numeral_text (int frac : list ascii) : string :=
  string_of_list_ascii (int ++ frac_suffix frac).

(** The numeral is not below one with six zeros or more right after the
    point, unless it has six decimals at most. *)
Definition fixed_range (int frac : list ascii) : Prop :=
  int <> ["0"%char]
  \/ Exists (fun c => c <> "0"%char) (firstn 6 frac)
  \/ (length frac <= 6)%nat.

(** The characters of a plain numeral. *)
Definition numeral_char (c : ascii) : Prop :=
  PyDecimal.is_digit c = true \/ c = "."%char.

(** *** Sources of a rule *)

(** A filter of another type than [filter_type]. *)
Definition other_filter (filter_type : string) (f : dict scalar) : Prop :=
  exists t, getitem f "filterType" = ret t /\ t <> SStr filter_type.

(** The keys of the entry each variant reads. *)
Definition entry_keys (m : market) : list string :=
  match m with
  | spot => ["filters"; "symbol"; "status"; "baseAsset"; "quoteAsset"]
  | usdt_futures =>
      ["filters"; "symbol"; "contractType"; "status"; "baseAsset"; "quoteAsset";
       "marginAsset"]
  | coin_futures =>
      ["filters"; "symbol"; "contractType"; "contractStatus"; "baseAsset";
       "quoteAsset"; "marginAsset"]
  end.

(** The entry key each plain field of a rule is read from. *)
Definition field_sources (m : market) : list (string * string) :=
  match m with
  | spot =>
      [("symbol", "symbol"); ("status", "status"); ("base_asset", "baseAsset");
       ("quote_asset", "quoteAsset")]
  | usdt_futures =>
      [("symbol", "symbol"); ("contract_type", "contractType"); ("status", "status");
       ("base_asset", "baseAsset"); ("quote_asset", "quoteAsset");
       ("margin_asset", "marginAsset")]
  | coin_futures =>
      [("symbol", "symbol"); ("contract_type", "contractType");
       ("status", "contractStatus"); ("base_asset", "baseAsset");
       ("quote_asset", "quoteAsset"); ("margin_asset", "marginAsset")]
  end.

(** The value a mapping binds to a key, if any. *)
Fixpoint lookup_item {K V : Type} `{EqDecision K} (d : list (K * V)) (key : K)
    : option V :=
  match d with
  | [] => None
  | (k, v) :: d' => if decide (k = key) then Some v else lookup_item d' key
  end.

(** Two price filters in one entry. *)
Definition doubled_filters : list (dict scalar) :=
  [ [("filterType", SStr "LOT_SIZE"); ("stepSize", SStr "0.001")];
    [("filterType", SStr "PRICE_FILTER"); ("tickSize", SStr "0.10")];
    [("filterType", SStr "PRICE_FILTER"); ("tickSize", SStr "0.50")] ].

(** An exchange-info response that lists one symbol twice. *)
Definition relisted_symbols : list (dict ival) :=
  [sample_info "BTCUSDT" "0.10"; sample_info "ETHUSDT" "0.01";
   sample_info "BTCUSDT" "0.50"].

Definition relisted_world : world :=
  sample_world 0 (fun _ => []) relisted_symbols no_listing (fun _ => 0).

(** The world [w] with another premium-index response. *)
Definition with_premium_index (w : world) (data : list (dict scalar)) : world :=
  {| http_time := http_time w; http_klines := http_klines w;
     http_exchange_info := http_exchange_info w;
     http_premium_index := fun _ _ => ret data;
     http_listing := http_listing w; clock := clock w;
     requests := requests w; clock_reads := clock_reads w;
     slept := slept w |}.

(** A premium-index response whose second entry has no funding rate. *)
Definition partial_premium_index : list (dict scalar) :=
  [ [("symbol", SStr "BTCUSDT"); ("lastFundingRate", SStr "0.00010000")];
    [("symbol", SStr "ETHUSDT"); ("markPrice", SStr "1800.10")];
    [("symbol", SStr "BNBUSDT"); ("lastFundingRate", SStr "0.00020000")] ].

Definition partial_world : world :=
  with_premium_index (sample_world 0 (fun _ => []) [] no_listing (fun _ => 0))
    partial_premium_index.

(** The entry is listed under the symbol [k]. *)
Definition listed_as (k : scalar) (info : dict ival) : Prop :=
  getitem info "symbol" = ret (IScalar k).

(** The mapping the spot variant returns for the relisted response. *)
Definition relisted_rules : list (scalar * dict rule_val) :=
  match fst (get_syminfo 5 1 (market_api spot 10) relisted_world) with
  | inr res => res
  | inl _ => []
  end.

(** A world whose klines feed always answers with the one bar of minute 0
    and whose clock stands still at minute 1. *)
Definition frozen_world : world :=
  sample_world 0 (fun _ => [sample_kline 0 59999]) [] no_listing
    (fun _ => to_datetime_ms 60000).

(** The feed and the clock of the frozen world stay as they are. *)
Definition frozen (w : world) : Prop :=
  http_klines w = http_klines frozen_world /\ clock w = clock frozen_world.

(** A world whose servers fail on the first [failures] requests. *)
Definition dead_world (failures : nat) : world :=
  sample_world failures (fun _ => []) [] no_listing (fun _ => 0).

(** *** Chains of truncated pages *)










(** ** Properties *)

(** *** The funding-rate operation *)

(** C5: on the spot variant [get_funding_rate] raises [TypeError] in every
    world: the request method returns [None], which the comprehension cannot
    iterate. No empty result is returned. *)
Theorem spot_get_funding_rate_raises :
  forall (is_numeric : string -> bool) (timeout : Z) (w : world),
    get_funding_rate is_numeric (market_api spot timeout) w
    = (raise (TypeError "'NoneType' object is not iterable"), w).
Proof. intros. reflexivity. Qed.

(** C4: in a world where every first request fails and the second one
    succeeds, [get_funding_rate] raises after a single request, while the
    three sibling operations recover through the Retry Executor with a
    second request. *)
Theorem get_funding_rate_bypasses_retry :
  let api := market_api usdt_futures 10 in
  let funding := get_funding_rate plain_numeric api flaky_world in
  let candles := get_candle 5 1 api "BTCUSDT" "1m" [] flaky_world in
  let time := get_timestamp_and_weight 5 1 api flaky_world in
  let rules := get_syminfo 5 1 api flaky_world in
  (fst funding = raise (NetworkError "timeout") /\ requests (snd funding) = 1%nat)
  /\ (returned (fst candles) = true /\ requests (snd candles) = 2%nat)
  /\ (returned (fst time) = true /\ requests (snd time) = 2%nat)
  /\ (returned (fst rules) = true /\ requests (snd rules) = 2%nat).
Proof. vm_compute. repeat split. Qed.




(** *** The rule parsers *)

(** Splits a successful chain of [try!] steps into its steps. *)
Ltac split_try H :=
  unfold ret, raise in H;
  repeat match type of H with
    | bindr ?x _ = inr _ =>
        let E := fresh "E" in
        destruct x eqn:E; simpl in H; [discriminate H|]
    end.

Lemma rule_shapes_differ :
  exists r_usdt r_coin r_spot,
    BinanceUsdtFutureMarketApi.parse_syminfo (sample_info "BTCUSDT" "0.10") = ret r_usdt
    /\ BinanceCoinFutureMarketApi.parse_syminfo (sample_info "BTCUSDT" "0.10") = ret r_coin
    /\ BinanceUsdtSpotMarketApi.parse_syminfo (sample_info "BTCUSDT" "0.10") = ret r_spot
    /\ ~ same_fields r_usdt r_coin
    /\ ~ same_fields r_coin r_spot
    /\ ~ same_fields r_usdt r_spot.
Proof.
  do 3 eexists. split; [vm_compute; reflexivity|].
  split; [vm_compute; reflexivity|].
  split; [vm_compute; reflexivity|].
  unfold same_fields. repeat split; intros H.
  - destruct (proj1 (H "min_notional_value")) as [E|[E|[E|[E|[E|[E|[E|[E|[]]]]]]]]];
      [simpl; tauto | discriminate E ..].
  - destruct (proj1 (H "contract_type")) as [E|[E|[E|[E|[E|[E|[E|[]]]]]]]];
      [simpl; tauto | discriminate E ..].
  - destruct (proj1 (H "contract_type")) as [E|[E|[E|[E|[E|[E|[E|[]]]]]]]];
      [simpl; tauto | discriminate E ..].
Qed.

(** C6, amended: a rule each variant parses successfully carries exactly
    the fields of its own variant; the six common fields are present in all
    three, the futures variants add the contract type and the margin asset,
    and the coin-margined variant has no minimum notional. The status is read
    from [contractStatus] on the coin-margined variant and from [status] on
    the other two. *)
Theorem parse_syminfo_fields :
  forall (m : market) (timeout : Z) (info : dict ival) (r : dict rule_val),
    @parse_syminfo (market_api m timeout) info = ret r ->
    keys r = rule_fields m
    /\ (forall k, In k common_fields -> In k (keys r))
    /\ (exists status, getitem info (status_field m) = ret status
                       /\ getitem r "status" = ret (RVal status)).
Proof.
  intros m timeout info r H.
  destruct m; simpl in H;
    [ unfold BinanceUsdtSpotMarketApi.parse_syminfo in H
    | unfold BinanceUsdtFutureMarketApi.parse_syminfo in H
    | unfold BinanceCoinFutureMarketApi.parse_syminfo in H ];
    split_try H; injection H as <-;
    (split; [reflexivity | split;
       [ intros k Hk; simpl in Hk |- *; tauto
       | eexists; split; [eassumption | reflexivity] ] ]).
Qed.

Lemma parse_syminfo_fields_witness :
  exists r,
    @parse_syminfo (market_api coin_futures 10) (sample_info "BTCUSD_PERP" "0.10") = ret r
    /\ keys r = rule_fields coin_futures
    /\ (forall k, In k common_fields -> In k (keys r))
    /\ (exists status,
          getitem (sample_info "BTCUSD_PERP" "0.10") (status_field coin_futures) = ret status
          /\ getitem r "status" = ret (RVal status)).
Proof.
  eexists. split; [vm_compute; reflexivity|].
  apply (parse_syminfo_fields coin_futures 10 (sample_info "BTCUSD_PERP" "0.10")).
  vm_compute. reflexivity.
Defined.

Lemma decimal_from_filters_fails (filters : ival) (ft fn : string)
    (v : option scalar) (e : exn) :
  get_from_filters filters ft fn = ret v ->
  PyDecimal.Decimal_new v = raise e ->
  decimal_from_filters filters ft fn = raise e.
Proof.
  intros Hv He. unfold decimal_from_filters. rewrite Hv. simpl.
  rewrite He. reflexivity.
Qed.

(** Walks a chain of [try!] steps up to the step known to raise. *)
Ltac walk_try :=
  repeat match goal with
    | |- exists _, bindr ?x _ = _ =>
        let E := fresh "E" in
        destruct x eqn:E; simpl; [eexists; reflexivity|]; try congruence
    end.

Lemma parse_syminfo_fails_closed (m : market) (timeout : Z) (info : dict ival)
    (field ft fn : string) :
  In (field, (ft, fn)) (decimal_sources m) ->
  decimal_parse_fails info ft fn ->
  exists e, @parse_syminfo (market_api m timeout) info = raise e.
Proof.
  intros Hin (filters & v & e & Hf & Hv & He).
  pose proof (decimal_from_filters_fails _ _ _ _ _ Hv He) as Hfail.
  unfold raise in *.
  destruct m; simpl in Hin |- *;
    [ unfold BinanceUsdtSpotMarketApi.parse_syminfo
    | unfold BinanceUsdtFutureMarketApi.parse_syminfo
    | unfold BinanceCoinFutureMarketApi.parse_syminfo ];
    rewrite Hf; simpl;
    repeat (destruct Hin as [Hin|Hin]; [injection Hin as <- <- <-|]);
    try contradiction; walk_try.
Qed.

Lemma syminfo_loop_fails (self : BinanceMarketApi) (symbols : list (dict ival))
    (info : dict ival) (e : exn) :
  In info symbols ->
  parse_syminfo info = raise e ->
  forall results, exists e', syminfo_loop self symbols results = raise e'.
Proof.
  induction symbols as [|i symbols IH]; intros Hin He results; [contradiction|].
  simpl. destruct Hin as [->|Hin].
  - rewrite He. simpl. eexists. reflexivity.
  - destruct (parse_syminfo i); simpl; [eexists; reflexivity|].
    destruct (getitem i "symbol") as [|[k|fs]]; simpl;
      try (eexists; reflexivity).
    apply IH; assumption.
Qed.

(** C8: when the exchange-info response lists an entry one of whose decimal
    fields (the tick size, the step size or the notional its variant reads)
    is rejected by [Decimal], the rule parse of that entry raises and
    [get_syminfo] raises as well: no rule is produced for the symbol and no
    mapping is returned. *)
Theorem get_syminfo_fails_closed :
  forall (max_attempts : nat) (retry_delay : Z) (m : market) (timeout : Z)
         (w w' : world) (exg_info : dict (list (dict ival)))
         (symbols : list (dict ival)) (info : dict ival)
         (field filter_type field_name : string),
    async_retry_getter max_attempts retry_delay
      (@aioreq_exchange_info (market_api m timeout)) w = (ret exg_info, w') ->
    getitem exg_info "symbols" = ret symbols ->
    In info symbols ->
    In (field, (filter_type, field_name)) (decimal_sources m) ->
    decimal_parse_fails info filter_type field_name ->
    (exists e, @parse_syminfo (market_api m timeout) info = raise e)
    /\ (exists e, get_syminfo max_attempts retry_delay (market_api m timeout) w
                  = (raise e, w')).
Proof.
  intros ma rd m timeout w w' exg symbols info field ft fn Hreq Hsyms Hin Hsrc Hbad.
  destruct (parse_syminfo_fails_closed m timeout info field ft fn Hsrc Hbad) as [e He].
  split; [exists e; exact He|].
  destruct (syminfo_loop_fails (market_api m timeout) symbols info e Hin He [])
    as [e' He'].
  exists e'. unfold get_syminfo, bindM. rewrite Hreq. unfold liftM, ret; simpl.
  rewrite Hsyms. simpl. rewrite He'. reflexivity.
Qed.

Lemma get_syminfo_fails_closed_witness :
  (exists e, @parse_syminfo (market_api usdt_futures 10)
               (sample_info "BTCUSDT" "0.1O") = raise e)
  /\ (exists e, get_syminfo 5 1 (market_api usdt_futures 10) malformed_world
                = (raise e, count_request malformed_world)).
Proof.
  apply (get_syminfo_fails_closed 5 1 usdt_futures 10 malformed_world
           (count_request malformed_world)
           [("symbols", [sample_info "BTCUSDT" "0.1O"])]
           [sample_info "BTCUSDT" "0.1O"] (sample_info "BTCUSDT" "0.1O")
           "price_tick" "PRICE_FILTER" "tickSize").
  - reflexivity.
  - reflexivity.
  - left. reflexivity.
  - left. reflexivity.
  - exists (IFilters (sample_filters "0.1O")), (Some (SStr "0.1O")), InvalidOperation.
    repeat split.
Defined.

(** *** The candles operation *)








(** *** The closure poller *)

Section PollSequenceFacts.

Variable max_attempts : nat.
Variable retry_delay : Z.
Variable self : BinanceMarketApi.
Variables symbol interval : string.
Variable run_time : Timestamp.
Variable limit : Z.

Abbreviation poll := (Poller.poll max_attempts retry_delay self symbol interval limit).
Abbreviation next_poll :=
  (Poller.next_poll max_attempts retry_delay self symbol interval limit).
Abbreviation world_at :=
  (Poller.world_at max_attempts retry_delay self symbol interval limit).
Abbreviation batch_at :=
  (Poller.batch_at max_attempts retry_delay self symbol interval limit).
Abbreviation fetched_at :=
  (Poller.fetched_at max_attempts retry_delay self symbol interval limit).
Abbreviation clock_at :=
  (Poller.clock_at max_attempts retry_delay self symbol interval limit).
Abbreviation timed_at :=
  (Poller.timed_at max_attempts retry_delay self symbol interval limit).
Abbreviation shows_closure := (Poller.shows_closure run_time).
Abbreviation expired := (Poller.expired self run_time).
Abbreviation keeps_polling :=
  (Poller.keeps_polling max_attempts retry_delay self symbol interval run_time limit).
Abbreviation fetch fuel :=
  (fetch_recent_closed_candle max_attempts retry_delay self fuel symbol interval
     run_time limit).

Lemma fold_max_le (xs : list Z) (x y : Z) :
  y <= fold_left Z.max xs x <-> y <= x \/ Exists (fun z => y <= z) xs.
Proof.
  revert x. induction xs as [|a xs IH]; intros x; simpl.
  - rewrite Exists_nil. tauto.
  - rewrite IH, Exists_cons, Z.max_le_iff. tauto.
Qed.

Lemma max_begin_time_ge_spec (df : DataFrame) :
  max_begin_time_ge df run_time = true <-> shows_closure df.
Proof.
  unfold max_begin_time_ge, shows_closure. destruct df as [|c df]; simpl.
  - rewrite Exists_nil. split; [discriminate | tauto].
  - rewrite Z.leb_le, fold_max_le, Exists_cons.
    assert (Exists (fun z => run_time <= z) (map candle_begin_time df)
            <-> Exists (fun c => run_time <= candle_begin_time c) df) as ->; [|tauto].
    induction df as [|c' df IH]; simpl; [rewrite !Exists_nil; tauto|].
    rewrite !Exists_cons, IH. tauto.
Qed.

Lemma expired_spec (now : Timestamp) :
  (timedelta_seconds candle_close_timeout_sec <? now - run_time) = true <-> expired now.
Proof. unfold expired. rewrite Z.ltb_lt. lia. Qed.

Lemma keeps_polling_S (n : nat) (w : world) :
  keeps_polling (S n) w <->
  (exists df, fst (poll w) = ret df /\ ~ shows_closure df
              /\ ~ expired (clock (snd (poll w)) (clock_reads (snd (poll w)))))
  /\ keeps_polling n (next_poll w).
Proof.
  unfold keeps_polling. split.
  - intros H. split; [apply (H 0%nat); lia|].
    intros k Hk. apply (H (S k)). lia.
  - intros [H0 H] [|k] Hk; [exact H0 | apply H; lia].
Qed.

(** A poll that neither shows the closure nor has expired goes round. *)
Lemma fetch_continue (fuel : nat) (w : world) (df : DataFrame) :
  fst (poll w) = ret df ->
  ~ shows_closure df ->
  ~ expired (clock (snd (poll w)) (clock_reads (snd (poll w)))) ->
  fetch (S fuel) w = fetch fuel (next_poll w).
Proof.
  intros Hdf Hopen Htime. unfold next_poll. simpl.
  fold (poll w). destruct (poll w) as [[e|df'] w1]; simpl in *; [discriminate|].
  injection Hdf as ->.
  destruct (max_begin_time_ge df run_time) eqn:Hmax.
  { exfalso. apply Hopen, max_begin_time_ge_spec, Hmax. }
  destruct (timedelta_seconds candle_close_timeout_sec
            <? clock w1 (clock_reads w1) - run_time) eqn:Hexp.
  { exfalso. apply Htime, expired_spec, Hexp. }
  reflexivity.
Qed.

Lemma fetch_skip (n : nat) :
  forall (w : world) (fuel : nat),
    keeps_polling n w -> fetch (n + fuel) w = fetch fuel (world_at n w).
Proof.
  induction n as [|n IH]; intros w fuel H; [reflexivity|].
  apply keeps_polling_S in H. destruct H as [(df & Hdf & Hopen & Htime) H].
  simpl Nat.add. rewrite (fetch_continue _ w df Hdf Hopen Htime).
  apply IH, H.
Qed.

(** What a returning run of the poller has done. *)
Lemma fetch_returns (fuel : nat) :
  forall (w w' : world) (res : DataFrame) (flag : bool),
    fetch fuel w = Some (ret (res, flag), w') ->
    exists n last,
      (n < fuel)%nat /\ keeps_polling n w /\ batch_at n w = ret last
      /\ res = before run_time last
      /\ ((flag = true /\ shows_closure last /\ w' = fetched_at n w)
          \/ (flag = false /\ ~ shows_closure last /\ expired (clock_at n w)
              /\ w' = timed_at n w)).
Proof.
  induction fuel as [|fuel IH]; intros w w' res flag H; [discriminate|].
  simpl in H. fold (poll w) in H.
  destruct (poll w) as [[e|df] w1] eqn:Hpoll; [discriminate|].
  destruct (max_begin_time_ge df run_time) eqn:Hmax.
  { injection H as <- <- <-. exists 0%nat, df.
    unfold batch_at, fetched_at, keeps_polling. simpl. rewrite Hpoll.
    repeat split; [lia | intros; lia | ].
    left. repeat split. apply max_begin_time_ge_spec, Hmax. }
  assert (Hopen : ~ shows_closure df).
  { rewrite <- max_begin_time_ge_spec, Hmax. discriminate. }
  simpl in H.
  destruct (timedelta_seconds candle_close_timeout_sec
            <? clock w1 (clock_reads w1) - run_time) eqn:Hexp.
  { injection H as <- <- <-. exists 0%nat, df.
    unfold batch_at, fetched_at, timed_at, clock_at, fetched_at, keeps_polling.
    simpl. rewrite Hpoll.
    repeat split; [lia | intros; lia | ].
    right. repeat split; [exact Hopen | apply expired_spec, Hexp]. }
  assert (Htime : ~ expired (clock w1 (clock_reads w1))).
  { rewrite <- expired_spec, Hexp. discriminate. }
  apply IH in H. destruct H as (n & last & Hn & Hkeep & Hlast & Hres & Hend).
  assert (Hnext : next_poll w = snd (sleep 1 (snd (now_time w1)))).
  { unfold next_poll. rewrite Hpoll. reflexivity. }
  simpl in Hnext. exists (S n), last. rewrite <- Hnext in *.
  split; [lia|]. split.
  { apply keeps_polling_S. split; [|exact Hkeep].
    exists df. rewrite Hpoll. auto. }
  split; [exact Hlast|]. split; [exact Hres|]. exact Hend.
Qed.

(** A poll whose batch shows the closure ends the loop with the flag set. *)
Lemma fetch_closed (fuel : nat) (w : world) (df : DataFrame) :
  fst (poll w) = ret df ->
  shows_closure df ->
  fetch (S fuel) w = Some (ret (before run_time df, true), snd (poll w)).
Proof.
  intros Hdf Hclosed. simpl. fold (poll w).
  destruct (poll w) as [[e|df'] w1]; simpl in *; [discriminate|].
  injection Hdf as ->.
  apply max_begin_time_ge_spec in Hclosed. rewrite Hclosed. reflexivity.
Qed.

(** A poll that shows no closure at an expired time ends the loop with the
    flag clear. *)
Lemma fetch_timed_out (fuel : nat) (w : world) (df : DataFrame) :
  fst (poll w) = ret df ->
  ~ shows_closure df ->
  expired (clock (snd (poll w)) (clock_reads (snd (poll w)))) ->
  fetch (S fuel) w
  = Some (ret (before run_time df, false), snd (now_time (snd (poll w)))).
Proof.
  intros Hdf Hopen Htime. simpl. fold (poll w).
  destruct (poll w) as [[e|df'] w1]; simpl in *; [discriminate|].
  injection Hdf as ->.
  destruct (max_begin_time_ge df run_time) eqn:Hmax.
  { exfalso. apply Hopen, max_begin_time_ge_spec, Hmax. }
  apply expired_spec in Htime. rewrite Htime. reflexivity.
Qed.

(** C1: the poller confirms closure exactly when a batch it fetches holds a
    candle that opens at [run_time] or later. If poll [n] is the first to
    fetch such a batch, every run with more than [n] polls of fuel stops
    right after that fetch and returns the flag true with the candles of
    that batch that open before [run_time]; and a run that returns the flag
    true has fetched such a batch last and returns just those candles. *)
Theorem fetch_recent_closed_candle_confirms_closure :
  forall w : world,
    (forall (n : nat) (last : DataFrame),
        keeps_polling n w ->
        batch_at n w = ret last ->
        shows_closure last ->
        forall fuel, (n < fuel)%nat ->
          fetch fuel w = Some (ret (before run_time last, true), fetched_at n w))
    /\ (forall (fuel : nat) (res : DataFrame) (w' : world),
          fetch fuel w = Some (ret (res, true), w') ->
          exists n last,
            (n < fuel)%nat /\ keeps_polling n w /\ batch_at n w = ret last
            /\ shows_closure last /\ res = before run_time last
            /\ w' = fetched_at n w).
Proof.
  intros w. split.
  - intros n last Hkeep Hlast Hclosed fuel Hfuel.
    replace fuel with (n + S (fuel - S n))%nat by lia.
    rewrite (fetch_skip n w _ Hkeep).
    apply fetch_closed; assumption.
  - intros fuel res w' H.
    destruct (fetch_returns fuel w w' res true H)
      as (n & last & Hn & Hkeep & Hlast & Hres & [(_ & Hc & Hw)|(Hf & _)]);
      [|discriminate].
    exists n, last. auto 10.
Qed.

(** C2: when the polls up to poll [n] fetch batches with no candle opening
    at [run_time] or later, and poll [n] is the first to read a clock beyond
    [run_time] plus the timeout, every run with more than [n] polls of fuel
    stops there and returns, without raising, the flag false with the
    candles of the last batch that open before [run_time]; no run returns
    the flag true. *)
Theorem fetch_recent_closed_candle_times_out :
  forall (w : world) (n : nat) (last : DataFrame),
    keeps_polling n w ->
    batch_at n w = ret last ->
    ~ shows_closure last ->
    expired (clock_at n w) ->
    (forall fuel, (n < fuel)%nat ->
       fetch fuel w = Some (ret (before run_time last, false), timed_at n w))
    /\ (forall (fuel : nat) (res : DataFrame) (w' : world),
          fetch fuel w <> Some (ret (res, true), w')).
Proof.
  intros w n last Hkeep Hlast Hopen Htime. split.
  - intros fuel Hfuel.
    replace fuel with (n + S (fuel - S n))%nat by lia.
    rewrite (fetch_skip n w _ Hkeep).
    apply fetch_timed_out; assumption.
  - intros fuel res w' H.
    destruct (fetch_returns fuel w w' res true H)
      as (n' & last' & _ & Hkeep' & Hlast' & _ & [(_ & Hc & _)|(Hf & _)]);
      [|discriminate].
    destruct (Nat.lt_trichotomy n' n) as [Hlt|[->|Hgt]].
    + destruct (Hkeep n' Hlt) as (df & Hdf & Hno & _).
      rewrite Hlast' in Hdf. injection Hdf as <-. contradiction.
    + rewrite Hlast in Hlast'. injection Hlast' as <-. contradiction.
    + destruct (Hkeep' n Hgt) as (df & _ & _ & Hnot). contradiction.
Qed.

End PollSequenceFacts.

Lemma fetch_recent_closed_candle_confirms_closure_witness :
  fetch_recent_closed_candle 5 1 (market_api usdt_futures 10) 7 "BTCUSDT" "1m"
    (to_datetime_ms 60000) 5 closing_world
  = Some (ret ([candle_of_kline (sample_kline 0 59999)], true),
          Poller.fetched_at 5 1 (market_api usdt_futures 10) "BTCUSDT" "1m" 5 1
            closing_world).
Proof.
  apply (proj1 (fetch_recent_closed_candle_confirms_closure 5 1
                  (market_api usdt_futures 10) "BTCUSDT" "1m" (to_datetime_ms 60000) 5
                  closing_world)
           1%nat
           (map candle_of_kline [sample_kline 0 59999; sample_kline 60000 119999])).
  - intros k Hk. assert (k = 0%nat) as -> by lia.
    exists [candle_of_kline (sample_kline 0 59999)].
    split; [reflexivity|]. split.
    + rewrite <- max_begin_time_ge_spec. vm_compute. discriminate.
    + rewrite <- expired_spec. vm_compute. discriminate.
  - reflexivity.
  - apply max_begin_time_ge_spec. reflexivity.
  - lia.
Defined.

Lemma fetch_recent_closed_candle_times_out_witness :
  (forall fuel, (1 < fuel)%nat ->
     fetch_recent_closed_candle 5 1 (market_api spot 10) fuel "BTCUSDT" "1m"
       (to_datetime_ms 60000) 5 stale_world
     = Some (ret ([candle_of_kline (sample_kline 0 59999)], false),
             Poller.timed_at 5 1 (market_api spot 10) "BTCUSDT" "1m" 5 1 stale_world))
  /\ (forall (fuel : nat) (res : DataFrame) (w' : world),
        fetch_recent_closed_candle 5 1 (market_api spot 10) fuel "BTCUSDT" "1m"
          (to_datetime_ms 60000) 5 stale_world
        <> Some (ret (res, true), w')).
Proof.
  apply (fetch_recent_closed_candle_times_out 5 1 (market_api spot 10)
           "BTCUSDT" "1m" (to_datetime_ms 60000) 5 stale_world 1%nat
           [candle_of_kline (sample_kline 0 59999)]).
  - intros k Hk. assert (k = 0%nat) as -> by lia.
    exists [candle_of_kline (sample_kline 0 59999)].
    split; [reflexivity|]. split.
    + rewrite <- max_begin_time_ge_spec. vm_compute. discriminate.
    + rewrite <- expired_spec. vm_compute. discriminate.
  - reflexivity.
  - rewrite <- max_begin_time_ge_spec. vm_compute. discriminate.
  - apply expired_spec. reflexivity.
Defined.

(** *** The archive paginator *)

Lemma ascii_compare_lt_trans (a b c : ascii) :
  Ascii.compare a b = Lt -> Ascii.compare b c = Lt -> Ascii.compare a c = Lt.
Proof.
  unfold Ascii.compare. rewrite !N.compare_lt_iff. lia.
Qed.

Lemma string_compare_lt_trans (a : string) :
  forall b c : string,
    String.compare a b = Lt -> String.compare b c = Lt -> String.compare a c = Lt.
Proof.
  induction a as [|x a IH]; intros [|y b] [|z c]; simpl; try congruence.
  destruct (Ascii.compare x y) eqn:Exy; try discriminate;
    destruct (Ascii.compare y z) eqn:Eyz; try discriminate; intros Hab Hbc.
  - apply Ascii.compare_eq_iff in Exy, Eyz. subst.
    assert (Ascii.compare z z = Eq) as ->.
    { unfold Ascii.compare. apply N.compare_refl. }
    eapply IH; eassumption.
  - apply Ascii.compare_eq_iff in Exy. subst. rewrite Eyz. reflexivity.
  - apply Ascii.compare_eq_iff in Eyz. subst. rewrite Exy. reflexivity.
  - rewrite (ascii_compare_lt_trans x y z Exy Eyz). reflexivity.
Qed.

Lemma string_compare_refl (a : string) : String.compare a a = Eq.
Proof.
  induction a as [|x a IH]; simpl; [reflexivity|].
  unfold Ascii.compare. rewrite N.compare_refl. exact IH.
Qed.

#[export] Instance str_le_total : Total str_le.
Proof. intros a b. apply String.leb_total. Qed.

#[export] Instance str_le_trans : Transitive str_le.
Proof.
  intros a b c. unfold str_le, String.leb.
  destruct (String.compare a b) eqn:Eab; try discriminate;
    destruct (String.compare b c) eqn:Ebc; try discriminate; intros _ _.
  - apply String.compare_eq_iff in Eab, Ebc. subst.
    rewrite string_compare_refl. reflexivity.
  - apply String.compare_eq_iff in Eab. subst. rewrite Ebc. reflexivity.
  - apply String.compare_eq_iff in Ebc. subst. rewrite Eab. reflexivity.
  - rewrite (string_compare_lt_trans a b c Eab Ebc). reflexivity.
Qed.





Section Paginator.

Variable max_attempts : nat.
Variable retry_delay : Z.



End Paginator.


Example aws_list_dir_overlapping_pages :
  fst <$> aws_list_dir 5 1 3 archive_dir archive_world
  = Some (ret [archive_key "1"; archive_key "2"; archive_key "3"; archive_key "4"]).
Proof. vm_compute. reflexivity. Qed.

(** *** Decimal fields of a rule *)

Module PyDecimalFacts.

Import PyDecimal.

(** What a digit is not. *)
Lemma is_digit_other (c : ascii) :
  is_digit c = true ->
  is_space c = false /\ Ascii.eqb c "_" = false /\ Ascii.eqb c "-" = false
  /\ Ascii.eqb c "+" = false /\ Ascii.eqb c "." = false.
Proof.
  destruct c as [b0 b1 b2 b3 b4 b5 b6 b7].
  destruct b0, b1, b2, b3, b4, b5, b6, b7; vm_compute; intros H;
    first [discriminate H | repeat split].
Qed.

Lemma point_other :
  is_digit "." = false /\ is_space "." = false /\ Ascii.eqb "." "_" = false.
Proof. repeat split. Qed.

Lemma numeral_char_other (c : ascii) :
  numeral_char c -> is_space c = false /\ Ascii.eqb c "_" = false.
Proof.
  intros [H| ->]; [|split; reflexivity].
  destruct (is_digit_other c H) as (? & ? & _). split; assumption.
Qed.

Lemma lstrip_numeral (s : list ascii) : Forall numeral_char s -> lstrip s = s.
Proof.
  destruct 1 as [|c s Hc _]; [reflexivity|]. simpl.
  destruct (numeral_char_other c Hc) as [-> _]. reflexivity.
Qed.

Lemma strip_numeral (s : list ascii) : Forall numeral_char s -> strip s = s.
Proof.
  intros H. unfold strip. rewrite (lstrip_numeral s H).
  rewrite lstrip_numeral; [apply rev_involutive|].
  apply Forall_forall. intros c Hc. rewrite Forall_forall in H.
  apply H. rewrite list_elem_of_In in Hc |- *. apply in_rev. exact Hc.
Qed.

Lemma remove_underscores_numeral (s : list ascii) :
  Forall numeral_char s -> remove_underscores s = s.
Proof.
  unfold remove_underscores. induction 1 as [|c s Hc _ IH]; [reflexivity|].
  simpl. destruct (numeral_char_other c Hc) as [_ ->]. simpl.
  rewrite IH. reflexivity.
Qed.

Lemma numeral_chars (int frac : list ascii) :
  digits int -> digits frac -> Forall numeral_char (int ++ frac_suffix frac).
Proof.
  intros Hi Hf. apply Forall_app. split.
  - eapply Forall_impl; [exact Hi|]. intros c Hc. left. exact Hc.
  - destruct frac as [|c frac]; [constructor|]. simpl. constructor.
    + right. reflexivity.
    + eapply Forall_impl; [exact Hf|]. intros c' Hc'. left. exact Hc'.
Qed.

Lemma span_digits_app (ds r : list ascii) :
  digits ds ->
  match r with [] => True | c :: _ => is_digit c = false end ->
  span_digits (ds ++ r) = (ds, r).
Proof.
  intros Hds Hr. induction Hds as [|c ds Hc _ IH]; simpl.
  - destruct r as [|c r]; [reflexivity|]. simpl. rewrite Hr. reflexivity.
  - rewrite Hc, IH. reflexivity.
Qed.

(** A plain numeral parses to its own digits, with the exponent counting
    its decimals. *)
Lemma parse_finite_numeral (int frac : list ascii) :
  canonical_int int -> digits frac ->
  parse_finite false (int ++ frac_suffix frac)
  = Some (Finite false (str_int (int ++ frac)) (- Z.of_nat (length frac))).
Proof.
  intros [Hi Hne] Hf. unfold parse_finite.
  rewrite span_digits_app; [|exact Hi|destruct frac; simpl; trivial].
  destruct int as [|c int]; [contradiction|].
  destruct frac as [|f frac]; simpl frac_suffix.
  - simpl. rewrite app_nil_r. reflexivity.
  - pose proof (span_digits_app (f :: frac) [] Hf I) as Hspan.
    rewrite app_nil_r in Hspan. cbn beta iota. rewrite Hspan, Ascii.eqb_refl.
    cbn [parse_exponent]. rewrite Z.sub_0_l. reflexivity.
Qed.

Lemma of_string_numeral (int frac : list ascii) :
  canonical_int int -> digits frac ->
  of_string (numeral_text int frac)
  = ret (Finite false (str_int (int ++ frac)) (- Z.of_nat (length frac))).
Proof.
  intros Hi Hf. unfold of_string, numeral_text.
  rewrite list_ascii_of_string_of_list_ascii.
  pose proof (numeral_chars int frac (proj1 Hi) Hf) as Hchars.
  rewrite (strip_numeral _ Hchars), (remove_underscores_numeral _ Hchars).
  assert (Hsign : split_sign (int ++ frac_suffix frac)
                  = (false, int ++ frac_suffix frac)).
  { destruct Hi as [Hd Hne]. destruct int as [|c int]; [contradiction|].
    inversion Hd as [|? ? Hc _]; subst. simpl.
    destruct (is_digit_other c Hc) as (_ & _ & -> & -> & _). reflexivity. }
  rewrite Hsign, (parse_finite_numeral int frac Hi Hf). reflexivity.
Qed.

(** A number with digits on both sides of the point, or with no decimals,
    is written as it stands. *)
Lemma to_str_point (a b : list ascii) :
  a <> [] ->
  to_str (Finite false (a ++ b) (- Z.of_nat (length b)))
  = string_of_list_ascii (a ++ frac_suffix b).
Proof.
  intros Ha. unfold to_str. f_equal. cbv zeta.
  assert (Hl : - Z.of_nat (length b) + Z.of_nat (length (a ++ b))
               = Z.of_nat (length a)) by (rewrite length_app; lia).
  assert (Hpos : 0 < Z.of_nat (length a)) by (destruct a; [contradiction|simpl; lia]).
  rewrite Hl.
  replace (- Z.of_nat (length b) <=? 0) with true by (symmetry; apply Z.leb_le; lia).
  replace (-6 <? Z.of_nat (length a)) with true by (symmetry; apply Z.ltb_lt; lia).
  cbn [andb].
  replace (Z.of_nat (length a) <=? 0) with false by (symmetry; apply Z.leb_gt; lia).
  rewrite Z.eqb_refl. destruct b as [|c b].
  - rewrite app_nil_r, Z.leb_refl, Z.sub_diag. simpl. rewrite !app_nil_r. reflexivity.
  - replace (Z.of_nat (length (a ++ c :: b)) <=? Z.of_nat (length a)) with false
      by (symmetry; apply Z.leb_gt; rewrite length_app; simpl; lia).
    rewrite Nat2Z.id, take_app_length, drop_app_length. simpl.
    rewrite app_nil_r. reflexivity.
Qed.

(** A number below one with at most five zeros after the point is written
    with those zeros, not with an exponent. *)
Lemma to_str_small (z : nat) (g : list ascii) :
  g <> [] -> (z <= 5)%nat ->
  to_str (Finite false g (- Z.of_nat (z + length g)))
  = string_of_list_ascii ("0"%char :: "."%char :: repeat "0"%char z ++ g).
Proof.
  intros Hg Hz. unfold to_str. f_equal. cbv zeta.
  assert (Hl : - Z.of_nat (z + length g) + Z.of_nat (length g) = - Z.of_nat z) by lia.
  rewrite Hl.
  replace (- Z.of_nat (z + length g) <=? 0) with true by (symmetry; apply Z.leb_le; lia).
  replace (-6 <? - Z.of_nat z) with true by (symmetry; apply Z.ltb_lt; lia).
  cbn [andb].
  replace (- Z.of_nat z <=? 0) with true by (symmetry; apply Z.leb_le; lia).
  rewrite Z.eqb_refl, Z.opp_involutive, Nat2Z.id. simpl.
  rewrite app_nil_r. reflexivity.
Qed.

Lemma lstrip_zeros_split (s : list ascii) :
  exists z, s = repeat "0"%char z ++ lstrip_zeros s.
Proof.
  induction s as [|c s [z IH]]; [exists 0%nat; reflexivity|]. simpl.
  destruct (Ascii.eqb_spec c "0") as [->|_].
  - exists (S z). simpl. f_equal. exact IH.
  - exists 0%nat. reflexivity.
Qed.

Lemma repeat_zero_no_digit (n : nat) (s : list ascii) :
  (6 <= n)%nat ->
  ~ Exists (fun c => c <> "0"%char) (firstn 6 (repeat "0"%char n ++ s)).
Proof.
  intros Hn. replace n with (6 + (n - 6))%nat by lia. simpl.
  rewrite !Exists_cons, Exists_nil. tauto.
Qed.

(** Within the fixed range, the string of a parsed plain numeral is the
    numeral. *)
Lemma to_str_numeral (int frac : list ascii) :
  canonical_int int -> digits frac -> fixed_range int frac ->
  to_str (Finite false (str_int (int ++ frac)) (- Z.of_nat (length frac)))
  = numeral_text int frac.
Proof.
  intros [Hd Hne] Hf Hrange. unfold numeral_text.
  destruct int as [|c int]; [contradiction|].
  destruct (Ascii.eqb_spec c "0") as [->|Hc].
  - destruct int as [|c' int]; [|contradiction Hne; reflexivity].
    unfold str_int. simpl lstrip_zeros.
    destruct (lstrip_zeros_split frac) as [z Hz].
    destruct (lstrip_zeros frac) as [|g gs].
    + rewrite app_nil_r in Hz. subst frac. destruct z as [|z].
      * apply (to_str_point ["0"%char] []). discriminate.
      * assert (Hz : (z <= 5)%nat).
        { destruct Hrange as [H|[H|H]].
          - contradiction H. reflexivity.
          - destruct (Nat.le_gt_cases 6 (S z)) as [H6|H6]; [|lia].
            rewrite <- (app_nil_r (repeat _ _)) in H.
            contradiction (repeat_zero_no_digit (S z) [] H6).
          - rewrite repeat_length in H. lia. }
        rewrite repeat_length.
        replace (S z) with (z + length ["0"%char])%nat by (simpl; lia).
        rewrite (to_str_small z ["0"%char]); [|discriminate|exact Hz].
        replace (z + length ["0"%char])%nat with (S z) by (simpl; lia).
        simpl. rewrite <- repeat_cons. reflexivity.
    + subst frac. assert (Hz5 : (z <= 5)%nat).
      { destruct Hrange as [H|[H|H]].
        - contradiction H. reflexivity.
        - destruct (Nat.le_gt_cases 6 z) as [H6|H6]; [|lia].
          contradiction (repeat_zero_no_digit z (g :: gs) H6).
        - rewrite length_app, repeat_length in H. simpl in H. lia. }
      rewrite length_app, repeat_length.
      rewrite (to_str_small z (g :: gs)); [|discriminate|exact Hz5].
      destruct z; reflexivity.
  - unfold str_int. simpl lstrip_zeros.
    apply Ascii.eqb_neq in Hc. rewrite Hc.
    apply (to_str_point (c :: int) frac). discriminate.
Qed.

End PyDecimalFacts.

Lemma decimal_from_filters_numeral (filters : ival) (ft fn : string)
    (int frac : list ascii) (v : rule_val) :
  get_from_filters filters ft fn = ret (Some (SStr (numeral_text int frac))) ->
  canonical_int int -> digits frac ->
  decimal_from_filters filters ft fn = inr v ->
  v = RDec (PyDecimal.Finite false (PyDecimal.str_int (int ++ frac))
              (- Z.of_nat (length frac))).
Proof.
  intros Hget Hi Hf H. unfold decimal_from_filters in H.
  rewrite Hget in H. simpl in H.
  rewrite (PyDecimalFacts.of_string_numeral int frac Hi Hf) in H.
  simpl in H. injection H as <-. reflexivity.
Qed.

Lemma decimal_str_reproduces_source_counterexample :
  exists r d,
    BinanceUsdtSpotMarketApi.parse_syminfo (sample_info "DOGEBTC" "0.00000001") = ret r
    /\ getitem r "price_tick" = ret (RDec d)
    /\ PyDecimal.to_str d = "1E-8"
    /\ PyDecimal.to_str d <> "0.00000001".
Proof.
  do 2 eexists. split; [vm_compute; reflexivity|].
  split; [vm_compute; reflexivity|].
  split; [vm_compute; reflexivity | vm_compute; discriminate].
Qed.

(** C7, amended: in a rule a variant parses successfully, a decimal field
    whose source is a plain numeral is the exact decimal of that string: its
    coefficient is the digits of the source and its exponent counts the
    decimals of the source, with no floating point in between. Its string
    is the source itself when the numeral is in the fixed range, that is,
    not below one with six zeros or more after the point, or of six
    decimals at most. *)
Theorem parse_syminfo_decimal_exact :
  forall (m : market) (timeout : Z) (info : dict ival) (r : dict rule_val)
         (filters : ival) (field filter_type field_name : string)
         (int frac : list ascii),
    @parse_syminfo (market_api m timeout) info = ret r ->
    getitem info "filters" = ret filters ->
    In (field, (filter_type, field_name)) (decimal_sources m) ->
    get_from_filters filters filter_type field_name
    = ret (Some (SStr (numeral_text int frac))) ->
    canonical_int int ->
    digits frac ->
    getitem r field
    = ret (RDec (PyDecimal.Finite false (PyDecimal.str_int (int ++ frac))
                   (- Z.of_nat (length frac))))
    /\ (fixed_range int frac ->
        PyDecimal.to_str (PyDecimal.Finite false (PyDecimal.str_int (int ++ frac))
                            (- Z.of_nat (length frac)))
        = numeral_text int frac).
Proof.
  intros m timeout info r filters field ft fn int frac H Hfilters Hin Hget Hi Hf.
  split; [|intros Hrange; apply PyDecimalFacts.to_str_numeral; assumption].
  unfold ret in Hfilters.
  destruct m; simpl in H, Hin;
    [ unfold BinanceUsdtSpotMarketApi.parse_syminfo in H
    | unfold BinanceUsdtFutureMarketApi.parse_syminfo in H
    | unfold BinanceCoinFutureMarketApi.parse_syminfo in H ];
    rewrite Hfilters in H; simpl in H; split_try H; injection H as <-;
    repeat (destruct Hin as [Hin|Hin]; [injection Hin as <- <- <-|]);
    try contradiction;
    match goal with
    | E : decimal_from_filters filters ?ft ?fn = inr _,
      G : get_from_filters filters ?ft ?fn = _ |- _ =>
        rewrite (decimal_from_filters_numeral _ _ _ int frac _ G Hi Hf E)
    end; reflexivity.
Qed.

Lemma parse_syminfo_decimal_exact_witness :
  getitem sample_spot_rule "price_tick"
  = ret (RDec (PyDecimal.Finite false (list_ascii_of_string "10000") (-8)))
  /\ PyDecimal.to_str (PyDecimal.Finite false (list_ascii_of_string "10000") (-8))
     = "0.00010000".
Proof.
  assert (Hrange : fixed_range (list_ascii_of_string "0")
                     (list_ascii_of_string "00010000")).
  { right. left. simpl. do 3 apply Exists_cons_tl. apply Exists_cons_hd. discriminate. }
  split;
    [ refine (proj1 (parse_syminfo_decimal_exact spot 10
                       (sample_info "BTCUSDT" "0.00010000") sample_spot_rule
                       (IFilters (sample_filters "0.00010000"))
                       "price_tick" "PRICE_FILTER" "tickSize"
                       (list_ascii_of_string "0") (list_ascii_of_string "00010000")
                       _ _ _ _ _ _))
    | refine (proj2 (parse_syminfo_decimal_exact spot 10
                       (sample_info "BTCUSDT" "0.00010000") sample_spot_rule
                       (IFilters (sample_filters "0.00010000"))
                       "price_tick" "PRICE_FILTER" "tickSize"
                       (list_ascii_of_string "0") (list_ascii_of_string "00010000")
                       _ _ _ _ _ _) Hrange) ];
    first [ reflexivity | left; reflexivity
          | split; [repeat constructor | exact I] | repeat constructor ].
Defined.

(** ** Further properties of the market API *)

(** *** Filters *)

Lemma get_from_filter_list_skip (pre rest : list (dict scalar)) (ft fn : string) :
  Forall (other_filter ft) pre ->
  get_from_filter_list (pre ++ rest) ft fn = get_from_filter_list rest ft fn.
Proof.
  induction 1 as [|f pre (t & Ht & Hne) _ IH]; [reflexivity|].
  simpl. rewrite Ht. simpl. destruct (decide (t = SStr ft)); [contradiction|].
  exact IH.
Qed.

(** X1: [get_from_filters] answers from the first filter of the asked type:
    the filters before it are skipped, the ones after it are never looked
    at, and the answer is that filter's field, or [KeyError] if it lacks
    the field. *)
Theorem get_from_filters_first_match :
  forall (pre post : list (dict scalar)) (f : dict scalar) (ft fn : string),
    Forall (other_filter ft) pre ->
    getitem f "filterType" = ret (SStr ft) ->
    get_from_filters (IFilters (pre ++ f :: post)) ft fn
    = match getitem f fn with
      | inr v => ret (Some v)
      | inl e => raise e
      end.
Proof.
  intros pre post f ft fn Hpre Hf. simpl.
  rewrite (get_from_filter_list_skip pre (f :: post) ft fn Hpre).
  simpl. rewrite Hf. simpl. destruct (decide (SStr ft = SStr ft)); [|congruence].
  destruct (getitem f fn); reflexivity.
Qed.

Lemma get_from_filters_first_match_witness :
  get_from_filters (IFilters doubled_filters) "PRICE_FILTER" "tickSize"
  = ret (Some (SStr "0.10")).
Proof.
  apply (get_from_filters_first_match
           [[("filterType", SStr "LOT_SIZE"); ("stepSize", SStr "0.001")]]
           [[("filterType", SStr "PRICE_FILTER"); ("tickSize", SStr "0.50")]]
           [("filterType", SStr "PRICE_FILTER"); ("tickSize", SStr "0.10")]
           "PRICE_FILTER" "tickSize").
  - constructor; [|constructor]. exists (SStr "LOT_SIZE"). split; [reflexivity|discriminate].
  - reflexivity.
Defined.

(** X2: when no filter of an entry has the type a decimal field is read
    from, [get_from_filters] returns [None], [Decimal] rejects it with
    [TypeError], and the rule parse of the entry raises. *)
Theorem parse_syminfo_missing_filter :
  forall (m : market) (timeout : Z) (info : dict ival) (fs : list (dict scalar))
         (field ft fn : string),
    getitem info "filters" = ret (IFilters fs) ->
    In (field, (ft, fn)) (decimal_sources m) ->
    Forall (other_filter ft) fs ->
    get_from_filters (IFilters fs) ft fn = ret None
    /\ decimal_from_filters (IFilters fs) ft fn
       = raise (TypeError "conversion from NoneType to Decimal is not supported")
    /\ exists e, @parse_syminfo (market_api m timeout) info = raise e.
Proof.
  intros m timeout info fs field ft fn Hfilters Hin Hnone.
  assert (Hget : get_from_filters (IFilters fs) ft fn = ret None).
  { simpl. rewrite <- (app_nil_r fs).
    rewrite (get_from_filter_list_skip fs [] ft fn Hnone). reflexivity. }
  split; [exact Hget|]. split.
  - apply (decimal_from_filters_fails _ _ _ None); [exact Hget | reflexivity].
  - apply (parse_syminfo_fails_closed m timeout info field ft fn Hin).
    exists (IFilters fs), None,
      (TypeError "conversion from NoneType to Decimal is not supported").
    repeat split; assumption.
Qed.

Lemma parse_syminfo_missing_filter_witness :
  get_from_filters (IFilters doubled_filters) "MIN_NOTIONAL" "notional" = ret None
  /\ decimal_from_filters (IFilters doubled_filters) "MIN_NOTIONAL" "notional"
     = raise (TypeError "conversion from NoneType to Decimal is not supported")
  /\ exists e,
       @parse_syminfo (market_api usdt_futures 10)
         [("symbol", IScalar (SStr "BTCUSDT")); ("filters", IFilters doubled_filters)]
       = raise e.
Proof.
  apply (parse_syminfo_missing_filter usdt_futures 10
           [("symbol", IScalar (SStr "BTCUSDT")); ("filters", IFilters doubled_filters)]
           doubled_filters "min_notional_value" "MIN_NOTIONAL" "notional").
  - reflexivity.
  - right. right. left. reflexivity.
  - repeat constructor; eexists; (split; [reflexivity|discriminate]).
Defined.

(** *** Rule parsers *)

(** Case analysis on the steps of a chain of [try!] under [returned]. *)
Ltac step_try H :=
  repeat match type of H with
    | returned (bindr ?x _) = true =>
        let E := fresh "E" in
        destruct x eqn:E; simpl in H; [discriminate H|]
    end.

(** X3: the rule parse of a variant succeeds exactly when the entry has
    every key the variant reads and [Decimal] accepts each of the filter
    fields the variant reads; otherwise it raises. *)
Theorem parse_syminfo_succeeds_iff :
  forall (m : market) (timeout : Z) (info : dict ival),
    returned (@parse_syminfo (market_api m timeout) info) = true
    <-> Forall (fun k => returned (getitem info k) = true) (entry_keys m)
        /\ exists filters,
             getitem info "filters" = ret filters
             /\ Forall (fun src =>
                          returned (decimal_from_filters filters
                                      (fst (snd src)) (snd (snd src))) = true)
                  (decimal_sources m).
Proof.
  intros m timeout info. split.
  - intros H.
    destruct m; simpl in H |- *;
      [ unfold BinanceUsdtSpotMarketApi.parse_syminfo in H
      | unfold BinanceUsdtFutureMarketApi.parse_syminfo in H
      | unfold BinanceCoinFutureMarketApi.parse_syminfo in H ];
      step_try H;
      (split;
       [ repeat constructor;
         match goal with E : ?x = inr _ |- returned ?x = true => rewrite E; reflexivity end
       | eexists; split; [reflexivity|];
         repeat constructor; simpl;
         match goal with E : ?x = inr _ |- returned ?x = true => rewrite E; reflexivity end ]).
  - intros [Hkeys (filters & Hf & Hdec)]. unfold ret in Hf.
    destruct m; simpl in Hkeys, Hdec |- *;
      [ unfold BinanceUsdtSpotMarketApi.parse_syminfo
      | unfold BinanceUsdtFutureMarketApi.parse_syminfo
      | unfold BinanceCoinFutureMarketApi.parse_syminfo ];
      repeat match goal with
        | H : Forall _ (_ :: _) |- _ =>
            let H1 := fresh "H" in
            apply Forall_cons in H; destruct H as [H1 H]; simpl in H1
        end;
      rewrite Hf; simpl;
      repeat match goal with
        | H : returned ?x = true |- context [bindr ?x _] =>
            destruct x; simpl in H |- *; [discriminate H|]; clear H
        end;
      reflexivity.
Qed.

(** X4: in a rule a variant parses successfully, every plain field is the
    value of the entry under the key the variant reads it from, passed
    through unchanged. *)
Theorem parse_syminfo_field_sources :
  forall (m : market) (timeout : Z) (info : dict ival) (r : dict rule_val)
         (field key : string),
    @parse_syminfo (market_api m timeout) info = ret r ->
    In (field, key) (field_sources m) ->
    exists v, getitem info key = ret v /\ getitem r field = ret (RVal v).
Proof.
  intros m timeout info r field key H Hin.
  destruct m; simpl in H, Hin;
    [ unfold BinanceUsdtSpotMarketApi.parse_syminfo in H
    | unfold BinanceUsdtFutureMarketApi.parse_syminfo in H
    | unfold BinanceCoinFutureMarketApi.parse_syminfo in H ];
    split_try H; injection H as <-;
    repeat (destruct Hin as [Hin|Hin]; [injection Hin as <- <-|]);
    try contradiction;
    (eexists; split; [eassumption | reflexivity]).
Qed.

Lemma parse_syminfo_field_sources_witness :
  exists v,
    getitem (sample_info "BTCUSD_PERP" "0.10") "contractStatus" = ret v
    /\ getitem
         [("symbol", RVal (IScalar (SStr "BTCUSD_PERP")));
          ("contract_type", RVal (IScalar (SStr "PERPETUAL")));
          ("status", RVal (IScalar (SStr "TRADING")));
          ("base_asset", RVal (IScalar (SStr "BTC")));
          ("quote_asset", RVal (IScalar (SStr "USDT")));
          ("margin_asset", RVal (IScalar (SStr "USDT")));
          ("price_tick", RDec (PyDecimal.Finite false (list_ascii_of_string "10") (-2)));
          ("face_value", RDec (PyDecimal.Finite false (list_ascii_of_string "1") (-3)))]
         "status" = ret (RVal v).
Proof.
  apply (parse_syminfo_field_sources coin_futures 10 (sample_info "BTCUSD_PERP" "0.10")).
  - reflexivity.
  - right. right. left. reflexivity.
Defined.

(** *** Funding rates *)

Lemma getitem_raises {V : Type} (d : dict V) (key : string) (e : exn) :
  getitem d key = raise e -> e = KeyError key.
Proof.
  induction d as [|[k v] d IH]; simpl.
  - intros H. injection H as <-. reflexivity.
  - destruct (String.eqb k key); [discriminate | exact IH].
Qed.

Lemma funding_records_raises (is_numeric : string -> bool)
    (pre post : list (dict scalar)) (d : dict scalar) :
  Forall (fun d => returned (getitem d "symbol") = true
                   /\ returned (getitem d "lastFundingRate") = true) pre ->
  returned (getitem d "symbol") && returned (getitem d "lastFundingRate") = false ->
  exists key,
    (key = "symbol" \/ key = "lastFundingRate")
    /\ returned (getitem d key) = false
    /\ funding_records is_numeric (pre ++ d :: post) = raise (KeyError key).
Proof.
  intros Hpre Hd. induction Hpre as [|x pre [Hs Hr] _ (key & Hkey & Hmiss & IH)].
  - simpl. destruct (getitem d "symbol") as [e|sym] eqn:Esym.
    + exists "symbol". rewrite Esym. split; [left; reflexivity|].
      split; [reflexivity|]. rewrite (getitem_raises _ _ _ Esym). reflexivity.
    + destruct (getitem d "lastFundingRate") as [e|rate] eqn:Erate; [|discriminate].
      exists "lastFundingRate". rewrite Erate. split; [right; reflexivity|].
      split; [reflexivity|]. simpl. rewrite (getitem_raises _ _ _ Erate). reflexivity.
  - exists key. split; [exact Hkey|]. split; [exact Hmiss|]. simpl.
    destruct (getitem x "symbol"); [discriminate|].
    destruct (getitem x "lastFundingRate"); [discriminate|].
    simpl. rewrite IH. reflexivity.
Qed.

(** X5: on the futures variants, when an entry of the premium-index
    response lacks its symbol or its last funding rate, [get_funding_rate]
    raises [KeyError] for the key missing from the first such entry: a
    missing rate is not coerced, and no frame is returned. *)
Theorem get_funding_rate_missing_key :
  forall (is_numeric : string -> bool) (m : market) (timeout : Z) (w w' : world)
         (pre post : list (dict scalar)) (d : dict scalar),
    m <> spot ->
    @aioreq_premium_index (market_api m timeout) w = (ret (Some (pre ++ d :: post)), w') ->
    Forall (fun d => returned (getitem d "symbol") = true
                     /\ returned (getitem d "lastFundingRate") = true) pre ->
    returned (getitem d "symbol") && returned (getitem d "lastFundingRate") = false ->
    exists key,
      (key = "symbol" \/ key = "lastFundingRate")
      /\ returned (getitem d key) = false
      /\ get_funding_rate is_numeric (market_api m timeout) w = (raise (KeyError key), w').
Proof.
  intros is_numeric m timeout w w' pre post d _ Hreq Hpre Hd.
  destruct (funding_records_raises is_numeric pre post d Hpre Hd)
    as (key & Hkey & Hmiss & Hraise).
  exists key. split; [exact Hkey|]. split; [exact Hmiss|].
  unfold get_funding_rate, bindM. rewrite Hreq. simpl.
  unfold liftM. rewrite Hraise. reflexivity.
Qed.

Lemma get_funding_rate_missing_key_witness :
  exists key,
    (key = "symbol" \/ key = "lastFundingRate")
    /\ returned (getitem [("symbol", SStr "ETHUSDT"); ("markPrice", SStr "1800.10")] key)
       = false
    /\ get_funding_rate plain_numeric (market_api usdt_futures 10) partial_world
       = (raise (KeyError key), count_request partial_world).
Proof.
  apply (get_funding_rate_missing_key plain_numeric usdt_futures 10 partial_world
           (count_request partial_world)
           [[("symbol", SStr "BTCUSDT"); ("lastFundingRate", SStr "0.00010000")]]
           [[("symbol", SStr "BNBUSDT"); ("lastFundingRate", SStr "0.00020000")]]
           [("symbol", SStr "ETHUSDT"); ("markPrice", SStr "1800.10")]).
  - discriminate.
  - reflexivity.
  - repeat constructor.
  - reflexivity.
Defined.

(** *** The mapping of exchange rules *)

Section Mappings.

Context {K V : Type} `{EqDecision K}.

Lemma lookup_setitem_eq (d : list (K * V)) (k : K) (v : V) :
  lookup_item (setitem d k v) k = Some v.
Proof.
  induction d as [|[k' x] d IH]; simpl.
  - destruct (decide (k = k)); [reflexivity | congruence].
  - destruct (decide (k' = k)) as [->|Hne]; simpl.
    + destruct (decide (k = k)); [reflexivity | congruence].
    + destruct (decide (k' = k)); [contradiction | exact IH].
Qed.

Lemma lookup_setitem_ne (d : list (K * V)) (k k' : K) (v : V) :
  k <> k' -> lookup_item (setitem d k v) k' = lookup_item d k'.
Proof.
  intros Hne. induction d as [|[k0 x] d IH]; simpl.
  - destruct (decide (k = k')); [contradiction | reflexivity].
  - destruct (decide (k0 = k)) as [->|Hne0]; simpl.
    + destruct (decide (k = k')); [contradiction | reflexivity].
    + destruct (decide (k0 = k')); [reflexivity | exact IH].
Qed.

Lemma setitem_keys (d : list (K * V)) (k k' : K) (v : V) :
  In k' (map fst (setitem d k v)) <-> k' = k \/ In k' (map fst d).
Proof.
  induction d as [|[k0 x] d IH]; simpl.
  - intuition congruence.
  - destruct (decide (k0 = k)) as [->|Hne]; simpl; [intuition congruence|].
    rewrite IH. intuition congruence.
Qed.

Lemma setitem_NoDup (d : list (K * V)) (k : K) (v : V) :
  List.NoDup (map fst d) -> List.NoDup (map fst (setitem d k v)).
Proof.
  induction d as [|[k0 x] d IH]; simpl; intros Hd.
  - constructor; [intros [] | constructor].
  - inversion Hd as [|? ? Hnot Hd']; subst.
    destruct (decide (k0 = k)) as [->|Hne]; simpl.
    + constructor; assumption.
    + constructor; [|apply IH, Hd'].
      rewrite setitem_keys. intros [->|Hin]; [congruence | contradiction].
Qed.

Lemma lookup_item_keys (d : list (K * V)) (k : K) :
  In k (map fst d) <-> exists v, lookup_item d k = Some v.
Proof.
  induction d as [|[k0 x] d IH]; simpl.
  - split; [intros [] | intros [v Hv]; discriminate].
  - destruct (decide (k0 = k)) as [->|Hne].
    + split; [intros _; exists x; reflexivity | intros _; left; reflexivity].
    + rewrite <- IH. intuition congruence.
Qed.

End Mappings.

(** What the loop of [get_syminfo] leaves in the mapping. *)
Lemma syminfo_loop_spec (self : BinanceMarketApi) (symbols : list (dict ival)) :
  forall (acc res : list (scalar * dict rule_val)),
    syminfo_loop self symbols acc = ret res ->
    (List.NoDup (map fst acc) -> List.NoDup (map fst res))
    /\ (forall k, In k (map fst res) <->
                  In k (map fst acc) \/ exists info, In info symbols /\ listed_as k info)
    /\ (forall k rule,
          lookup_item res k = Some rule <->
          (exists pre info post,
              symbols = pre ++ info :: post /\ listed_as k info
              /\ parse_syminfo info = ret rule
              /\ Forall (fun i => ~ listed_as k i) post)
          \/ (Forall (fun i => ~ listed_as k i) symbols
              /\ lookup_item acc k = Some rule)).
Proof.
  unfold listed_as.
  induction symbols as [|info0 rest IH]; intros acc res H.
  - simpl in H. injection H as <-. split; [auto|]. split.
    + intros k. split; [auto | intros [Hk|(i & [] & _)]; exact Hk].
    + intros k rule. split.
      * intros Hl. right. split; [constructor | exact Hl].
      * intros [(pre & i & post & Heq & _)|[_ Hl]]; [|exact Hl].
        destruct pre; discriminate.
  - simpl in H. unfold ret in *.
    destruct (parse_syminfo info0) as [|rule0] eqn:Hparse; [discriminate|].
    simpl in H.
    destruct (getitem info0 "symbol") as [|[k0|fs]] eqn:Hsym; try discriminate.
    simpl in H. destruct (IH _ _ H) as (Hnd & Hkeys & Hlook).
    split; [intros Hacc; apply Hnd, setitem_NoDup, Hacc|]. split.
    + intros k. rewrite Hkeys, setitem_keys. split.
      * intros [[->|Hk]|(i & Hi & Hl)].
        -- right. exists info0. split; [left; reflexivity | exact Hsym].
        -- left. exact Hk.
        -- right. exists i. split; [right; exact Hi | exact Hl].
      * intros [Hk|(i & [<-|Hi] & Hl)].
        -- left. right. exact Hk.
        -- left. left. congruence.
        -- right. exists i. split; assumption.
    + intros k rule. rewrite Hlook. split.
      * intros [(pre & i & post & -> & Hl & Hp & Hpost)|[Hrest Hl]].
        -- left. exists (info0 :: pre), i, post. repeat split; assumption.
        -- destruct (decide (k0 = k)) as [->|Hne].
           ++ rewrite lookup_setitem_eq in Hl. injection Hl as <-.
              left. exists [], info0, rest. repeat split; assumption.
           ++ rewrite (lookup_setitem_ne _ _ _ _ Hne) in Hl.
              right. split; [|exact Hl]. constructor; [|exact Hrest].
              rewrite Hsym. congruence.
      * intros [(pre & i & post & Heq & Hl & Hp & Hpost)|[Hall Hl]].
        -- destruct pre as [|x pre]; simpl in Heq; injection Heq as <- ->.
           ++ right. split; [exact Hpost|].
              rewrite Hsym in Hl. injection Hl as ->.
              rewrite Hparse in Hp. injection Hp as ->.
              apply lookup_setitem_eq.
           ++ left. exists pre, i, post. repeat split; assumption.
        -- apply Forall_cons in Hall. destruct Hall as [H0 Hrest].
           right. split; [exact Hrest|].
           rewrite lookup_setitem_ne; [exact Hl|].
           intros ->. apply H0. exact Hsym.
Qed.

(** X6: the mapping [get_syminfo] returns has one binding per symbol
    listed in the response; its keys are exactly the listed symbols, and a
    symbol listed more than once is bound to the rule of its last entry. *)
Theorem get_syminfo_last_wins :
  forall (max_attempts : nat) (retry_delay : Z) (self : BinanceMarketApi)
         (w w' w'' : world) (exg_info : dict (list (dict ival)))
         (symbols : list (dict ival)) (res : list (scalar * dict rule_val)),
    async_retry_getter max_attempts retry_delay aioreq_exchange_info w
    = (ret exg_info, w') ->
    getitem exg_info "symbols" = ret symbols ->
    get_syminfo max_attempts retry_delay self w = (ret res, w'') ->
    List.NoDup (map fst res)
    /\ (forall k, In k (map fst res) <-> exists info, In info symbols /\ listed_as k info)
    /\ (forall k rule,
          lookup_item res k = Some rule <->
          exists pre info post,
            symbols = pre ++ info :: post /\ listed_as k info
            /\ parse_syminfo info = ret rule
            /\ Forall (fun i => ~ listed_as k i) post).
Proof.
  intros ma rd self w w' w'' exg symbols res Hreq Hsyms Hres.
  unfold get_syminfo, bindM in Hres. rewrite Hreq in Hres.
  unfold liftM, ret in *. simpl in Hres. rewrite Hsyms in Hres. simpl in Hres.
  injection Hres as Hloop _.
  destruct (syminfo_loop_spec self symbols [] res Hloop) as (Hnd & Hkeys & Hlook).
  split; [apply Hnd; constructor|]. split.
  - intros k. rewrite Hkeys. simpl. tauto.
  - intros k rule. rewrite Hlook. split.
    + intros [H|[_ H]]; [exact H | discriminate].
    + intros H. left. exact H.
Qed.

Lemma get_syminfo_last_wins_witness :
  List.NoDup (map fst relisted_rules)
  /\ (forall k, In k (map fst relisted_rules) <->
                exists info, In info relisted_symbols /\ listed_as k info)
  /\ (forall k rule,
        lookup_item relisted_rules k = Some rule <->
        exists pre info post,
          relisted_symbols = pre ++ info :: post /\ listed_as k info
          /\ @parse_syminfo (market_api spot 10) info = ret rule
          /\ Forall (fun i => ~ listed_as k i) post).
Proof.
  apply (get_syminfo_last_wins 5 1 (market_api spot 10) relisted_world
           (count_request relisted_world) (count_request relisted_world)
           [("symbols", relisted_symbols)] relisted_symbols relisted_rules).
  - reflexivity.
  - reflexivity.
  - vm_compute. reflexivity.
Defined.

Example get_syminfo_relisted :
  map fst relisted_rules = [SStr "BTCUSDT"; SStr "ETHUSDT"]
  /\ lookup_item relisted_rules (SStr "BTCUSDT")
     = Some [("symbol", RVal (IScalar (SStr "BTCUSDT")));
             ("status", RVal (IScalar (SStr "TRADING")));
             ("base_asset", RVal (IScalar (SStr "BTC")));
             ("quote_asset", RVal (IScalar (SStr "USDT")));
             ("price_tick", RDec (PyDecimal.Finite false (list_ascii_of_string "50") (-2)));
             ("face_value", RDec (PyDecimal.Finite false (list_ascii_of_string "1") (-3)));
             ("min_notional_value",
              RDec (PyDecimal.Finite false (list_ascii_of_string "500000000") (-8)))].
Proof. vm_compute. split; reflexivity. Qed.

(** ** Further properties of the closure poller *)


Section PollSequenceMore.

Variable max_attempts : nat.
Variable retry_delay : Z.
Variable self : BinanceMarketApi.
Variables symbol interval : string.
Variable run_time : Timestamp.
Variable limit : Z.

Abbreviation fetch fuel :=
  (fetch_recent_closed_candle max_attempts retry_delay self fuel symbol interval
     run_time limit).
Abbreviation poll := (Poller.poll max_attempts retry_delay self symbol interval limit).
Abbreviation next_poll :=
  (Poller.next_poll max_attempts retry_delay self symbol interval limit).
Abbreviation world_at :=
  (Poller.world_at max_attempts retry_delay self symbol interval limit).
Abbreviation batch_at :=
  (Poller.batch_at max_attempts retry_delay self symbol interval limit).
Abbreviation fetched_at :=
  (Poller.fetched_at max_attempts retry_delay self symbol interval limit).
Abbreviation keeps_polling :=
  (Poller.keeps_polling max_attempts retry_delay self symbol interval run_time limit).


(** X8: as long as no fetched batch shows the closure and no reading of
    the clock is past the timeout, the poller goes on polling: it returns
    for no amount of fuel. *)
Theorem fetch_recent_closed_candle_keeps_waiting :
  forall w : world,
    (forall n, keeps_polling n w) ->
    forall fuel, fetch fuel w = None.
Proof.
  intros w Hkeep fuel.
  replace fuel with (fuel + 0)%nat by lia.
  rewrite (fetch_skip _ _ _ _ _ _ _ fuel w 0 (Hkeep fuel)). reflexivity.
Qed.

Lemma fetch_raises (fuel : nat) :
  forall (w w' : world) (e : exn),
    fetch fuel w = Some (raise e, w') ->
    exists n, (n < fuel)%nat /\ keeps_polling n w /\ batch_at n w = raise e
              /\ w' = fetched_at n w.
Proof.
  induction fuel as [|fuel IH]; intros w w' e H; [discriminate|].
  simpl in H. fold (poll w) in H.
  destruct (poll w) as [[e0|df] w1] eqn:Hpoll.
  { injection H as <- <-. exists 0%nat.
    unfold Poller.batch_at, Poller.fetched_at, Poller.keeps_polling. simpl.
    rewrite Hpoll. repeat split; [lia | intros; lia]. }
  destruct (max_begin_time_ge df run_time) eqn:Hmax; [discriminate|].
  assert (Hopen : ~ Poller.shows_closure run_time df).
  { rewrite <- max_begin_time_ge_spec, Hmax. discriminate. }
  simpl in H.
  destruct (timedelta_seconds candle_close_timeout_sec
            <? clock w1 (clock_reads w1) - run_time) eqn:Hexp; [discriminate|].
  assert (Htime : ~ Poller.expired self run_time (clock w1 (clock_reads w1))).
  { rewrite <- expired_spec, Hexp. discriminate. }
  apply IH in H. destruct H as (n & Hn & Hkeep & Hraise & Hw).
  assert (Hnext : next_poll w = snd (sleep 1 (snd (now_time w1)))).
  { unfold Poller.next_poll. rewrite Hpoll. reflexivity. }
  simpl in Hnext. exists (S n). rewrite <- Hnext in *.
  split; [lia|]. split; [|split; assumption].
  apply keeps_polling_S. split; [|exact Hkeep].
  exists df. rewrite Hpoll. auto.
Qed.

(** X9: the poller raises exactly when a fetch does: if the loop gets to
    poll [n] and that fetch raises, every run with more than [n] polls of
    fuel raises the same exception right there; and a run that raises has
    met that exception in one of its fetches. *)
Theorem fetch_recent_closed_candle_propagates :
  forall (w : world) (e : exn),
    (forall n, keeps_polling n w -> batch_at n w = raise e ->
       forall fuel, (n < fuel)%nat -> fetch fuel w = Some (raise e, fetched_at n w))
    /\ (forall fuel w', fetch fuel w = Some (raise e, w') ->
          exists n, (n < fuel)%nat /\ keeps_polling n w /\ batch_at n w = raise e
                    /\ w' = fetched_at n w).
Proof.
  intros w e. split.
  - intros n Hkeep Hraise fuel Hfuel.
    replace fuel with (n + S (fuel - S n))%nat by lia.
    rewrite (fetch_skip _ _ _ _ _ _ _ n w _ Hkeep).
    unfold Poller.batch_at, Poller.fetched_at in *. simpl.
    fold (poll (world_at n w)).
    destruct (poll (world_at n w)) as [[e0|df] w1]; simpl in *; [|discriminate].
    injection Hraise as ->. reflexivity.
  - intros fuel w' H. apply fetch_raises. exact H.
Qed.

End PollSequenceMore.


Lemma frozen_keeps_polling (n : nat) :
  forall w, frozen w ->
    Poller.keeps_polling 5 1 (market_api spot 10) "BTCUSDT" "1m"
      (to_datetime_ms 60000) 5 n w.
Proof.
  induction n as [|n IH]; intros w [Hk Hc]; [intros k Hk'; lia|].
  apply keeps_polling_S.
  assert (Hpoll : Poller.poll 5 1 (market_api spot 10) "BTCUSDT" "1m" 5 w
                  = (ret [candle_of_kline (sample_kline 0 59999)], count_request w)).
  { unfold Poller.poll, get_candle, bindM, async_retry_getter. simpl.
    unfold request_klines, session_get. rewrite Hk. reflexivity. }
  split.
  - exists [candle_of_kline (sample_kline 0 59999)]. rewrite Hpoll.
    split; [reflexivity|]. split.
    + rewrite <- max_begin_time_ge_spec. vm_compute. discriminate.
    + rewrite <- expired_spec. simpl. rewrite Hc. vm_compute. discriminate.
  - apply IH. unfold Poller.next_poll. rewrite Hpoll. split; assumption.
Qed.

Lemma fetch_recent_closed_candle_keeps_waiting_witness :
  fetch_recent_closed_candle 5 1 (market_api spot 10) 1000 "BTCUSDT" "1m"
    (to_datetime_ms 60000) 5 frozen_world = None.
Proof.
  apply (fetch_recent_closed_candle_keeps_waiting 5 1 (market_api spot 10)
           "BTCUSDT" "1m" (to_datetime_ms 60000) 5 frozen_world).
  intros n. apply frozen_keeps_polling. split; reflexivity.
Defined.

Lemma fetch_recent_closed_candle_propagates_witness :
  fetch_recent_closed_candle 2 1 (market_api coin_futures 10) 3 "BTCUSD_PERP" "1m"
    (to_datetime_ms 60000) 5 (dead_world 9)
  = Some (raise (NetworkError "timeout"),
          Poller.fetched_at 2 1 (market_api coin_futures 10) "BTCUSD_PERP" "1m" 5 0
            (dead_world 9)).
Proof.
  apply (proj1 (fetch_recent_closed_candle_propagates 2 1 (market_api coin_futures 10)
                  "BTCUSD_PERP" "1m" (to_datetime_ms 60000) 5 (dead_world 9)
                  (NetworkError "timeout")) 0%nat).
  - intros k Hk. lia.
  - reflexivity.
  - lia.
Defined.

(** *** The clock of the poller *)




(** ** Further properties of the archive paginator *)



Section PaginatorMore.

Variable max_attempts : nat.
Variable retry_delay : Z.

Abbreviation list_pages := (aws_list_pages max_attempts retry_delay).
Abbreviation list_dir := (aws_list_dir max_attempts retry_delay).












End PaginatorMore.










(** ** Properties of the archive paths *)

(** *** Strings *)

Lemma append_cons (c : ascii) (a b : string) : String c a +:+ b = String c (a +:+ b).
Proof. reflexivity. Qed.

Lemma append_nil_l (s : string) : "" +:+ s = s.
Proof. reflexivity. Qed.

Lemma append_nil_r (s : string) : s +:+ "" = s.
Proof.
  induction s as [|c s IH]; [reflexivity|]. rewrite append_cons, IH. reflexivity.
Qed.

Lemma append_assoc (a b c : string) : (a +:+ b) +:+ c = a +:+ (b +:+ c).
Proof.
  induction a as [|x a IH]; [reflexivity|]. rewrite !append_cons, IH. reflexivity.
Qed.

Lemma has_char_app (c : ascii) (a b : string) :
  has_char c (a +:+ b) = has_char c a || has_char c b.
Proof.
  induction a as [|x a IH]; [reflexivity|]. rewrite append_cons. simpl.
  rewrite IH, orb_assoc. reflexivity.
Qed.

Lemma endswith_sep_has_char (s : string) :
  endswith_sep s = true -> has_char "/" s = true.
Proof.
  induction s as [|c s IH]; [discriminate|]. simpl.
  destruct s as [|c' s]; [intros ->; reflexivity|].
  intros H. rewrite (IH H). apply orb_true_r.
Qed.

Lemma endswith_sep_app (a b : string) :
  b <> "" -> endswith_sep (a +:+ b) = endswith_sep b.
Proof.
  intros Hb. induction a as [|c a IH]; [reflexivity|]. rewrite append_cons. simpl.
  destruct (a +:+ b) eqn:E; [|exact IH].
  destruct a; [contradiction | rewrite append_cons in E; discriminate].
Qed.

Lemma endswith_sep_snoc (a : string) : endswith_sep (a +:+ "/") = true.
Proof. rewrite endswith_sep_app; [reflexivity | discriminate]. Qed.

Lemma os_path_basename_plain (f : string) :
  has_char "/" f = false -> os_path_basename f = f.
Proof.
  destruct f as [|c f]; [reflexivity|]. simpl.
  intros H. apply orb_false_elim in H. destruct H as [-> ->]. reflexivity.
Qed.

Lemma os_path_basename_app (dir f : string) :
  dir = "" \/ endswith_sep dir = true ->
  has_char "/" f = false ->
  os_path_basename (dir +:+ f) = f.
Proof.
  intros Hdir Hf. induction dir as [|c dir IH].
  - apply os_path_basename_plain, Hf.
  - destruct Hdir as [Hdir|Hdir]; [discriminate|].
    rewrite append_cons. cbn [os_path_basename].
    rewrite has_char_app, Hf, orb_false_r.
    destruct dir as [|c' dir].
    + simpl in Hdir |- *. rewrite Hdir. reflexivity.
    + assert (Hend : endswith_sep (String c' dir) = true) by exact Hdir.
      rewrite (endswith_sep_has_char _ Hend). apply IH. right. exact Hend.
Qed.

Lemma os_path_basename_no_sep (p : string) :
  has_char "/" (os_path_basename p) = false.
Proof.
  induction p as [|c p IH]; [reflexivity|]. simpl.
  destruct (has_char "/" p) eqn:Hp; [exact IH|].
  destruct (Ascii.eqb c "/") eqn:Hc; [exact Hp|].
  simpl. rewrite Hc, Hp. reflexivity.
Qed.

Lemma split_first_app (c : ascii) (a b : string) :
  has_char c a = false -> split_first c (a +:+ b) = a +:+ split_first c b.
Proof.
  induction a as [|x a IH]; [reflexivity|]. rewrite !append_cons. simpl. intros H.
  apply orb_false_elim in H. destruct H as [-> Ha]. rewrite (IH Ha). reflexivity.
Qed.

Lemma split_first_no_char (c x : ascii) (s : string) :
  has_char x s = false -> has_char x (split_first c s) = false.
Proof.
  induction s as [|y s IH]; [reflexivity|]. simpl. intros H.
  apply orb_false_elim in H. destruct H as [Hy Hs].
  destruct (Ascii.eqb y c); [reflexivity|]. simpl. rewrite Hy, (IH Hs). reflexivity.
Qed.

Lemma split_first_free (c : ascii) (s : string) :
  has_char c (split_first c s) = false.
Proof.
  induction s as [|y s IH]; [reflexivity|]. simpl.
  destruct (Ascii.eqb y c) eqn:Hy; [reflexivity|]. simpl. rewrite Hy, IH. reflexivity.
Qed.

Lemma after_first_app (c : ascii) (a b : string) :
  has_char c a = false -> after_first c (a +:+ b) = after_first c b.
Proof.
  induction a as [|x a IH]; [reflexivity|]. rewrite append_cons. simpl. intros H.
  apply orb_false_elim in H. destruct H as [-> Ha]. exact (IH Ha).
Qed.

Lemma after_first_no_char (c x : ascii) (s r : string) :
  after_first c s = Some r -> has_char x s = false -> has_char x r = false.
Proof.
  induction s as [|y s IH]; [discriminate|]. simpl. intros Hr H.
  apply orb_false_elim in H. destruct H as [_ Hs].
  destruct (Ascii.eqb y c); [injection Hr as <-; exact Hs | exact (IH Hr Hs)].
Qed.

Lemma split2_last_no_char (c x : ascii) (s : string) :
  has_char x s = false -> has_char x (split2_last c s) = false.
Proof.
  intros H. unfold split2_last.
  destruct (after_first c s) as [r1|] eqn:E1; [|exact H].
  pose proof (after_first_no_char c x s r1 E1 H) as H1.
  destruct (after_first c r1) as [r2|] eqn:E2; [|exact H1].
  exact (after_first_no_char c x r1 r2 E2 H1).
Qed.

Lemma remove_char_free (c : ascii) (s : string) :
  has_char c (remove_char c s) = false.
Proof.
  induction s as [|y s IH]; [reflexivity|]. simpl.
  destruct (Ascii.eqb y c) eqn:Hy; [exact IH|]. simpl. rewrite Hy, IH. reflexivity.
Qed.

Lemma remove_char_no_char (c x : ascii) (s : string) :
  has_char x s = false -> has_char x (remove_char c s) = false.
Proof.
  induction s as [|y s IH]; [reflexivity|]. simpl. intros H.
  apply orb_false_elim in H. destruct H as [Hy Hs].
  destruct (Ascii.eqb y c); [exact (IH Hs)|]. simpl. rewrite Hy, (IH Hs). reflexivity.
Qed.

(** *** File names *)

(** X17: for the path of an archive file named symbol, interval and date
    joined by dashes, under any directory and with any extension, where the
    symbol and the interval hold no dash and nothing before the extension
    holds a point, [parse_aws_dt_from_filepath] returns the date with its
    dashes removed. *)
Theorem parse_aws_dt_from_filepath_date :
  forall (dir sym itv date ext : string),
    dir = "" \/ endswith_sep dir = true ->
    has_char "/" (sym +:+ itv +:+ date +:+ ext) = false ->
    has_char "-" (sym +:+ itv) = false ->
    has_char "." (sym +:+ itv +:+ date) = false ->
    parse_aws_dt_from_filepath
      (dir +:+ sym +:+ "-" +:+ itv +:+ "-" +:+ date +:+ "." +:+ ext)
    = remove_char "-" date.
Proof.
  intros dir sym itv date ext Hdir Hsep Hdash Hpoint.
  rewrite !has_char_app in Hsep. rewrite !has_char_app in Hdash.
  rewrite !has_char_app in Hpoint.
  repeat match goal with
    | H : _ || _ = false |- _ => apply orb_false_elim in H; destruct H
    end.
  unfold parse_aws_dt_from_filepath.
  rewrite os_path_basename_app;
    [|exact Hdir|rewrite !has_char_app; simpl;
      repeat match goal with H : has_char "/" _ = false |- _ => rewrite H; clear H end;
      reflexivity].
  rewrite !append_cons, !append_nil_l.
  rewrite split_first_app by assumption. cbn [split_first]. simpl (Ascii.eqb "-" ".").
  cbn iota. rewrite split_first_app by assumption. cbn [split_first].
  simpl (Ascii.eqb "-" "."). cbn iota.
  rewrite split_first_app by assumption. cbn [split_first].
  rewrite Ascii.eqb_refl, append_nil_r.
  unfold split2_last.
  rewrite after_first_app by assumption. cbn [after_first]. rewrite Ascii.eqb_refl.
  rewrite after_first_app by assumption. cbn [after_first]. rewrite Ascii.eqb_refl.
  reflexivity.
Qed.

Lemma parse_aws_dt_from_filepath_date_witness :
  parse_aws_dt_from_filepath
    ("data/spot/daily/klines/BTCUSDT/1m/" +:+ "BTCUSDT" +:+ "-" +:+ "1m" +:+ "-"
       +:+ "2021-03-01" +:+ "." +:+ "zip.CHECKSUM")
  = remove_char "-" "2021-03-01".
Proof.
  apply (parse_aws_dt_from_filepath_date "data/spot/daily/klines/BTCUSDT/1m/"
           "BTCUSDT" "1m" "2021-03-01" "zip.CHECKSUM").
  - right. reflexivity.
  - reflexivity.
  - reflexivity.
  - reflexivity.
Defined.

(** X18: whatever the path, the text [parse_aws_dt_from_filepath] returns
    holds no dash, no point and no path separator. *)
Theorem parse_aws_dt_from_filepath_plain :
  forall p : string,
    has_char "-" (parse_aws_dt_from_filepath p) = false
    /\ has_char "." (parse_aws_dt_from_filepath p) = false
    /\ has_char "/" (parse_aws_dt_from_filepath p) = false.
Proof.
  intros p. unfold parse_aws_dt_from_filepath. split; [apply remove_char_free|].
  split.
  - apply remove_char_no_char, split2_last_no_char, split_first_free.
  - apply remove_char_no_char, split2_last_no_char, split_first_no_char,
      os_path_basename_no_sep.
Qed.

(** *** Candle directories *)

Lemma getitem_missing {V : Type} (d : dict V) (key : string) :
  ~ In key (keys d) -> getitem d key = raise (KeyError key).
Proof.
  induction d as [|[k v] d IH]; simpl; [reflexivity|]. intros Hnot.
  destruct (String.eqb_spec k key) as [->|_]; [contradiction Hnot; left; reflexivity|].
  apply IH. intros Hin. apply Hnot. right. exact Hin.
Qed.

(** The tokens [AWS_TYPE_MAP] gives a type it knows. *)
Lemma aws_type_tokens (type_ : string) (tokens : list string) :
  getitem AWS_TYPE_MAP type_ = inr tokens ->
  (type_ = "spot" /\ tokens = ["data"; "spot"])
  \/ (type_ = "usdt_futures" /\ tokens = ["data"; "futures"; "um"])
  \/ (type_ = "coin_futures" /\ tokens = ["data"; "futures"; "cm"]).
Proof.
  unfold AWS_TYPE_MAP. cbn [getitem]. unfold ret, raise.
  destruct (String.eqb_spec "spot" type_) as [<-|_];
    [intros H; injection H as <-; left; split; reflexivity|].
  destruct (String.eqb_spec "usdt_futures" type_) as [<-|_];
    [intros H; injection H as <-; right; left; split; reflexivity|].
  destruct (String.eqb_spec "coin_futures" type_) as [<-|_];
    [intros H; injection H as <-; right; right; split; reflexivity|].
  discriminate.
Qed.

(** X19: [aws_get_candle_dir] knows the three market types and no other:
    for each of them it returns, in both forms, a directory that ends with
    the separator; for any other type it raises [KeyError] naming the
    type. *)
Theorem aws_get_candle_dir_types :
  forall (type_ symbol time_interval : string) (local : bool),
    (In type_ ["spot"; "usdt_futures"; "coin_futures"] ->
     exists d, aws_get_candle_dir type_ symbol time_interval local = ret d
               /\ endswith_sep d = true)
    /\ (~ In type_ ["spot"; "usdt_futures"; "coin_futures"] ->
        aws_get_candle_dir type_ symbol time_interval local = raise (KeyError type_)).
Proof.
  intros type_ symbol time_interval local. split.
  - intros [<-|[<-|[<-|[]]]]; destruct local;
      (eexists; split; [reflexivity | apply endswith_sep_snoc]).
  - intros Hnot. unfold aws_get_candle_dir.
    rewrite (getitem_missing AWS_TYPE_MAP type_ Hnot). reflexivity.
Qed.

Lemma append_nonempty (a b : string) : a <> "" -> a +:+ b <> "".
Proof. destruct a; [contradiction | rewrite append_cons; discriminate]. Qed.

Lemma os_path_join_app (path : string) (p q : list string) :
  os_path_join path (p ++ q) = os_path_join (os_path_join path p) q.
Proof.
  revert path. induction p as [|b p IH]; intros path; [reflexivity|].
  simpl. apply IH.
Qed.

(** A relative component after a path that neither is empty nor ends with
    the separator is appended after one separator. *)
Lemma os_path_join_relative (path b : string) :
  path <> "" -> endswith_sep path = false -> startswith_sep b = false ->
  os_path_join path [b] = path +:+ "/" +:+ b.
Proof.
  intros Hne Hend Hb. simpl. rewrite Hb, Hend.
  destruct (String.eqb_spec path ""); [contradiction | reflexivity].
Qed.

Lemma endswith_sep_joined (path b : string) :
  b <> "" -> endswith_sep (path +:+ "/" +:+ b) = endswith_sep b.
Proof.
  intros Hb. rewrite endswith_sep_app by discriminate.
  rewrite append_cons, append_nil_l. simpl.
  destruct b; [contradiction | reflexivity].
Qed.

(** The local directory built on a joined type directory [dir]. *)
Lemma local_dir_relative (dir symbol time_interval : string) :
  dir <> "" -> endswith_sep dir = false ->
  symbol <> "" -> startswith_sep symbol = false -> endswith_sep symbol = false ->
  startswith_sep time_interval = false ->
  os_path_join dir [symbol; time_interval] +:+ os_sep
  = dir +:+ "/" +:+ symbol +:+ "/" +:+ time_interval +:+ "/".
Proof.
  intros Hd Hdend Hs Hsstart Hsend Histart.
  change [symbol; time_interval] with ([symbol] ++ [time_interval]).
  rewrite os_path_join_app, (os_path_join_relative dir symbol Hd Hdend Hsstart).
  rewrite os_path_join_relative;
    [| apply append_nonempty, Hd
     | rewrite endswith_sep_joined; assumption
     | exact Histart ].
  unfold os_sep. rewrite !append_assoc. reflexivity.
Qed.

(** X20: for a symbol that is not empty and neither starts nor ends with
    the separator, and an interval that does not start with it, the local
    directory is the same text as the web directory. *)
Theorem aws_get_candle_dir_local_is_web :
  forall (type_ symbol time_interval : string),
    symbol <> "" ->
    startswith_sep symbol = false ->
    endswith_sep symbol = false ->
    startswith_sep time_interval = false ->
    aws_get_candle_dir type_ symbol time_interval true
    = aws_get_candle_dir type_ symbol time_interval false.
Proof.
  intros type_ symbol time_interval Hs Hstart Hend Hi.
  unfold aws_get_candle_dir.
  destruct (getitem AWS_TYPE_MAP type_) as [e|tokens] eqn:E; [reflexivity|].
  destruct (aws_type_tokens type_ tokens E) as [[_ ->]|[[_ ->]|[_ ->]]];
    cbn [bindr app]; unfold ret; f_equal.
  - change ["spot"; "daily"; "klines"; symbol; time_interval]
      with (["spot"; "daily"; "klines"] ++ [symbol; time_interval]).
    rewrite os_path_join_app.
    change (os_path_join "data" ["spot"; "daily"; "klines"])
      with "data/spot/daily/klines".
    rewrite local_dir_relative by (assumption || discriminate || reflexivity).
    cbn [String.concat app]. rewrite !append_assoc. reflexivity.
  - change ["futures"; "um"; "daily"; "klines"; symbol; time_interval]
      with (["futures"; "um"; "daily"; "klines"] ++ [symbol; time_interval]).
    rewrite os_path_join_app.
    change (os_path_join "data" ["futures"; "um"; "daily"; "klines"])
      with "data/futures/um/daily/klines".
    rewrite local_dir_relative by (assumption || discriminate || reflexivity).
    cbn [String.concat app]. rewrite !append_assoc. reflexivity.
  - change ["futures"; "cm"; "daily"; "klines"; symbol; time_interval]
      with (["futures"; "cm"; "daily"; "klines"] ++ [symbol; time_interval]).
    rewrite os_path_join_app.
    change (os_path_join "data" ["futures"; "cm"; "daily"; "klines"])
      with "data/futures/cm/daily/klines".
    rewrite local_dir_relative by (assumption || discriminate || reflexivity).
    cbn [String.concat app]. rewrite !append_assoc. reflexivity.
Qed.

Lemma aws_get_candle_dir_local_is_web_witness :
  aws_get_candle_dir "usdt_futures" "BTCUSDT" "1m" true
  = aws_get_candle_dir "usdt_futures" "BTCUSDT" "1m" false.
Proof.
  apply (aws_get_candle_dir_local_is_web "usdt_futures" "BTCUSDT" "1m").
  - discriminate.
  - reflexivity.
  - reflexivity.
  - reflexivity.
Defined.



Lemma append_inj_l (pre a b : string) : pre +:+ a = pre +:+ b -> a = b.
Proof.
  induction pre as [|c pre IH]; [trivial|]. rewrite !append_cons.
  intros H. injection H as H. exact (IH H).
Qed.

Lemma append_sep_inj (a a' b b' : string) :
  has_char "/" a = false -> has_char "/" a' = false ->
  a +:+ String "/" b = a' +:+ String "/" b' -> a = a' /\ b = b'.
Proof.
  revert a'. induction a as [|c a IH]; intros [|c' a'] Ha Ha';
    rewrite ?append_cons, ?append_nil_l; intros H.
  - injection H as ->. split; reflexivity.
  - injection H as <- _. simpl in Ha'. discriminate.
  - injection H as -> _. simpl in Ha. discriminate.
  - injection H as -> H. simpl in Ha, Ha'.
    apply orb_false_elim in Ha, Ha'.
    destruct (IH a' (proj2 Ha) (proj2 Ha') H) as [-> ->]. split; reflexivity.
Qed.

Lemma append_snoc_inj (a a' : string) (c : ascii) :
  a +:+ String c "" = a' +:+ String c "" -> a = a'.
Proof.
  revert a'. induction a as [|x a IH]; intros [|x' a'];
    rewrite ?append_cons, ?append_nil_l; intros H.
  - reflexivity.
  - injection H as _ H. destruct a'; discriminate.
  - injection H as _ H. destruct a; discriminate.
  - injection H as -> H. rewrite (IH a' H). reflexivity.
Qed.

(** The web directory of a known type, as one text. *)
Lemma aws_get_candle_dir_web (type_ symbol time_interval d : string) :
  aws_get_candle_dir type_ symbol time_interval false = ret d ->
  exists dir,
    ((type_ = "spot" /\ dir = "data/spot/daily/klines/")
     \/ (type_ = "usdt_futures" /\ dir = "data/futures/um/daily/klines/")
     \/ (type_ = "coin_futures" /\ dir = "data/futures/cm/daily/klines/"))
    /\ d = dir +:+ symbol +:+ String "/" (time_interval +:+ "/").
Proof.
  unfold aws_get_candle_dir.
  destruct (getitem AWS_TYPE_MAP type_) as [e|tokens] eqn:E; [discriminate|].
  destruct (aws_type_tokens type_ tokens E) as [[-> ->]|[[-> ->]|[-> ->]]];
    cbn [bindr app String.concat]; unfold ret; intros H; injection H as <-;
    eexists; (split; [eauto|]); rewrite !append_assoc; reflexivity.
Qed.

(** X22: the web directory tells the type, the symbol and the interval
    apart: two calls that return the same directory, for symbols that hold
    no separator, were given the same type, symbol and interval. *)
Theorem aws_get_candle_dir_injective :
  forall (type1 symbol1 interval1 type2 symbol2 interval2 d : string),
    aws_get_candle_dir type1 symbol1 interval1 false = ret d ->
    aws_get_candle_dir type2 symbol2 interval2 false = ret d ->
    has_char "/" symbol1 = false ->
    has_char "/" symbol2 = false ->
    type1 = type2 /\ symbol1 = symbol2 /\ interval1 = interval2.
Proof.
  intros t1 s1 i1 t2 s2 i2 d H1 H2 Hs1 Hs2.
  destruct (aws_get_candle_dir_web _ _ _ _ H1) as (d1 & Hd1 & ->).
  destruct (aws_get_candle_dir_web _ _ _ _ H2) as (d2 & Hd2 & Heq).
  assert (Hsame : t1 = t2 /\ d1 = d2).
  { destruct Hd1 as [[-> ->]|[[-> ->]|[-> ->]]];
      destruct Hd2 as [[-> ->]|[[-> ->]|[-> ->]]];
      first [ split; reflexivity
            | exfalso; rewrite !append_cons, !append_nil_l in Heq; congruence ]. }
  destruct Hsame as [-> ->]. apply append_inj_l in Heq.
  destruct (append_sep_inj _ _ _ _ Hs1 Hs2 Heq) as [-> Hi].
  apply append_snoc_inj in Hi. subst. repeat split.
Qed.

Lemma aws_get_candle_dir_injective_witness :
  "coin_futures" = "coin_futures" /\ "BTCUSD_PERP" = "BTCUSD_PERP" /\ "1h" = "1h".
Proof.
  apply (aws_get_candle_dir_injective "coin_futures" "BTCUSD_PERP" "1h"
           "coin_futures" "BTCUSD_PERP" "1h"
           "data/futures/cm/daily/klines/BTCUSD_PERP/1h/");
    reflexivity.
Defined.

(** *** The download command *)




